(** * go-anxcloud: the pagination engine, the paged lbaas listings and
      the client constructor

    A shallow embedding of
      - [pkg/lbaas/common/common.go], package [pagination]:
        [Page], [Pageable], [HasNext], [LoopUntil], [AsChan];
      - [pkg/lbaas/backend/paged.go] and [pkg/lbaas/server/paged.go]:
        [GetPage], [NextPage] and the page accessors;
      - [pkg/client/client.go]: the options and [New], [dumpRequest]
        and [handleRequest];
      - the record calls of package [zone]: [ListRecords], [NewRecord],
        [UpdateRecord], [DeleteRecord].

    Go's [int] is modelled by [Z]: the only arithmetic the embedded
    code performs on it is the loop increment [i++] below a slice
    length and the comparisons of [HasNext] and of the status code, none
    of which can wrap.  A [context.Context] only carries deadlines and is
    not modelled. *)

From Stdlib Require Import ZArith Ascii String List Bool Lia DecimalString.
From stdpp Require Import base gmap strings.
From Stdlib Require DecimalZ DecimalPos.
Import ListNotations.
Local Open Scope string_scope.
Local Open Scope list_scope.
Local Open Scope Z_scope.

(** ** Go values held in an [interface{}] *)

(** The kinds of [reflect.Kind] that the values below can have. *)
Inductive kind : Type :=
  | Invalid | Bool | Int | Uint8 | Array | Map | Ptr | Slice | String
  | Struct.

(** A dynamically typed Go value.  [go_reflect_Value held] is a
    [reflect.Value] (a struct of the [reflect] package) that was itself
    stored in an [interface{}]; [held] is the value it reflects. *)
#[warnings="-register-all"]
Inductive value : Type :=
  | nil_interface
  | go_bool (b : bool)
  | go_int (n : Z)
  | go_uint8 (n : Z)
  | go_string (s : string)
  | go_array (elems : list value)
  | go_slice (elems : list value)
  | go_map (entries : list (value * value))
  | go_struct (fields : list value)
  | go_pointer (target : value)
  | go_reflect_Value (held : value).

(** What a goroutine can panic with. *)
Inductive panic : Type :=
  | ValueError (Method : string) (k : kind)
  | index_out_of_range
  | panic_Sprintf (format : string) (arg : value)
  | nil_dereference
  | close_of_closed_channel.

(** ** Errors

    [errors.New] values are told apart by their text (the sentinels of
    this repository all differ in it); [fmt.Errorf] keeps its format and
    arguments, and the error a [%w] verb wraps. *)
Inductive error : Type :=
  | errors_New (text : string)
  | fmt_Errorf (format : string) (args : list string)
  | fmt_Errorf_w (format : string) (wrapped : error) (args : list string).

Fixpoint strings_eqb (l1 l2 : list string) : bool :=
  match l1, l2 with
  | [], [] => true
  | s1 :: l1', s2 :: l2' => String.eqb s1 s2 && strings_eqb l1' l2'
  | _, _ => false
  end.

Fixpoint error_eqb (e1 e2 : error) : bool :=
  match e1, e2 with
  | errors_New t1, errors_New t2 => String.eqb t1 t2
  | fmt_Errorf f1 a1, fmt_Errorf f2 a2 => String.eqb f1 f2 && strings_eqb a1 a2
  | fmt_Errorf_w f1 w1 a1, fmt_Errorf_w f2 w2 a2 =>
      String.eqb f1 f2 && error_eqb w1 w2 && strings_eqb a1 a2
  | _, _ => false
  end.

(** [errors.Unwrap]. *)
Definition errors_Unwrap (err : error) : option error :=
  match err with
  | fmt_Errorf_w _ wrapped _ => Some wrapped
  | _ => None
  end.

(** [errors.Is]: [err] or an error along its [Unwrap] chain is [target]. *)
Fixpoint errors_Is (err target : error) : bool :=
  error_eqb err target ||
  match err with
  | fmt_Errorf_w _ wrapped _ => errors_Is wrapped target
  | _ => false
  end.

(** ** Calls that act on a world, may panic, may block

    A call takes the world [W] it acts on and gives a [result] and the
    world it leaves.  [OutOfFuel] is the model's own: the bound given to
    a loop was too small. *)
Inductive result (A : Type) : Type :=
  | Returns (a : A)
  | Panics (p : panic)
  | Blocks
  | OutOfFuel.
Arguments Returns {A} a.
Arguments Panics {A} p.
Arguments Blocks {A}.
Arguments OutOfFuel {A}.

Definition M (W A : Type) : Type := W -> result A * W.

Definition ret {W A} (a : A) : M W A := fun w => (Returns a, w).

Definition do_panic {W A} (p : panic) : M W A := fun w => (Panics p, w).

Definition bind {W A B} (c : M W A) (k : A -> M W B) : M W B :=
  fun w =>
    match c w with
    | (Returns a, w') => k a w'
    | (Panics p, w') => (Panics p, w')
    | (Blocks, w') => (Blocks, w')
    | (OutOfFuel, w') => (OutOfFuel, w')
    end.

(** A call of the [reflect] package: no world, but it may panic. *)
Definition lift {W A} (r : result A) : M W A := fun w => (r, w).

Notation "x <- c ;; k" := (bind c (fun x => k))
  (at level 100, c at next level, right associativity).

(** ** Package [reflect] *)
Module reflect.

(** [reflect.Value]; [ValueOf i] reflects the value held in the
    interface [i]. *)
Record Value : Type := ValueOf { held : value }.

(** A [reflect.Value] passed where an [interface{}] is expected is
    stored in it as it is, a struct. *)
Definition to_interface (v : Value) : value := go_reflect_Value (held v).

(** [Value.Interface]. *)
Definition Interface (v : Value) : value := held v.

Definition Kind (v : Value) : kind :=
  match held v with
  | nil_interface => Invalid
  | go_bool _ => Bool
  | go_int _ => Int
  | go_uint8 _ => Uint8
  | go_string _ => String
  | go_array _ => Array
  | go_slice _ => Slice
  | go_map _ => Map
  | go_struct _ => Struct
  | go_pointer _ => Ptr
  | go_reflect_Value _ => Struct
  end.

(** [Value.Len]: "It panics if v's Kind is not Array, Chan, Map,
    Slice, or String." *)
Definition Len (v : Value) : result Z :=
  match held v with
  | go_array elems | go_slice elems => Returns (Z.of_nat (length elems))
  | go_map entries => Returns (Z.of_nat (length entries))
  | go_string s => Returns (Z.of_nat (String.length s))
  | _ => Panics (ValueError "reflect.Value.Len" (Kind v))
  end.

(** [Value.Index]: "It panics if v's Kind is not Array, Slice, or
    String or i is out of range." *)
Definition Index (v : Value) (i : Z) : result Value :=
  match held v with
  | go_array elems | go_slice elems =>
      if (0 <=? i) && (i <? Z.of_nat (length elems)) then
        match elems !! Z.to_nat i with
        | Some x => Returns (ValueOf x)
        | None => Panics index_out_of_range
        end
      else Panics index_out_of_range
  | go_string s =>
      match String.get (Z.to_nat i) s with
      | Some c =>
          if 0 <=? i then Returns (ValueOf (go_uint8 (Z.of_nat (nat_of_ascii c))))
          else Panics index_out_of_range
      | None => Panics index_out_of_range
      end
  | _ => Panics (ValueError "reflect.Value.Index" (Kind v))
  end.

End reflect.

(** ** Package [pagination] ([pkg/lbaas/common/common.go]) *)
Module pagination.

Definition ErrConditionNeverMet : error :=
  errors_New "looped all items and the condition was never met".

(** The interface [Page]: a value of it is given by what its four
    methods return. *)
Record Page : Type := {
  Num : Z;
  Size : Z;
  Total : Z;
  Content : value
}.

(** The interface [Pageable], its methods acting on a world [W].  The
    two results of a method are the Go pair [(Page, error)], either of
    which can be [nil]. *)
Record Pageable (W : Type) : Type := {
  GetPage : Z -> Z -> M W (option Page * option error);
  NextPage : Page -> M W (option Page * option error)
}.
Arguments GetPage {W} _ _ _.
Arguments NextPage {W} _ _.

Definition HasNext (page : Page) : bool := Num page <? Total page.

Definition UntilTrueFunc (W : Type) : Type := value -> M W (bool * option error).

(** How the [for] statement of [LoopUntil] is left: by the [return err]
    in its body, or past its end with the flag [stopped]. *)
Inductive loop_exit : Type :=
  | return_err (err : error)
  | falls_through (stopped : bool).

Section LoopUntil.
Context {W : Type}.

(** [for i := 0; i < reflect.ValueOf(content).Len(); i++ { ... }],
    started at [i]; the condition is evaluated before every round. *)
Fixpoint for_loop (fuel : nat) (content : reflect.Value)
    (untilFunc : UntilTrueFunc W) (i : Z) : M W loop_exit :=
  match fuel with
  | O => lift OutOfFuel
  | S fuel' =>
      n <- lift (reflect.Len (reflect.ValueOf (reflect.to_interface content))) ;;
      if i <? n then
        elem <- lift (reflect.Index content i) ;;
        r <- untilFunc (reflect.to_interface elem) ;;
        let '(stop, err) := r in
        match err with
        | Some e => ret (return_err e)
        | None =>
            if (stop : bool) then ret (falls_through true)
            else for_loop fuel' content untilFunc (i + 1)
        end
      else ret (falls_through false)
  end.

Definition LoopUntil (fuel : nat) (pageable : Pageable W)
    (untilFunc : UntilTrueFunc W) : M W (option error) :=
  r <- GetPage pageable 1 10 ;;
  let '(page, err) := r in
  match err with
  | Some e => ret (Some e)
  | None =>
      match page with
      | None => do_panic nil_dereference
      | Some page =>
          let content := reflect.ValueOf (Content page) in
          match reflect.Kind content with
          | Array | Slice =>
              exit <- for_loop fuel content untilFunc 0 ;;
              match exit with
              | return_err e => ret (Some e)
              | falls_through stopped =>
                  if negb stopped then ret (Some ErrConditionNeverMet)
                  else ret None
              end
          | _ =>
              do_panic (panic_Sprintf
                "The page content is supposed to be of type slice or array but was %T"
                (Content page))
          end
      end
  end.

End LoopUntil.

(** *** [AsChan]

    The world of one [AsChan] call: the world [remote] its Pageable
    acts on, the two channels it makes, what the consumer has taken
    from [consumer] so far (oldest first), and [script], what the
    consumer does at each [select] the task reaches. *)
Inductive consumer_step : Type :=
  | receives   (* takes the element offered on [consumer] *)
  | cancels.   (* calls the CancelFunc *)

Record task_world (W : Type) : Type := {
  remote : W;
  consumer_closed : bool;
  done_closed : bool;
  received : list value;
  script : list consumer_step
}.
Arguments remote {W} _.
Arguments consumer_closed {W} _.
Arguments done_closed {W} _.
Arguments received {W} _.
Arguments script {W} _.

Section AsChan.
Context {W : Type}.

(** [consumer := make(chan interface{})], [done := make(chan interface{})]. *)
Definition make_channels (w : W) (sc : list consumer_step) : task_world W :=
  {| remote := w; consumer_closed := false; done_closed := false;
     received := []; script := sc |}.

(** [close(done)]: closing a closed channel panics. *)
Definition close_done : M (task_world W) unit :=
  fun w =>
    if done_closed w then (Panics close_of_closed_channel, w)
    else (Returns tt,
          {| remote := remote w; consumer_closed := consumer_closed w;
             done_closed := true; received := received w;
             script := script w |}).

(** [close(consumer)]. *)
Definition close_consumer : M (task_world W) unit :=
  fun w =>
    if consumer_closed w then (Panics close_of_closed_channel, w)
    else (Returns tt,
          {| remote := remote w; consumer_closed := true;
             done_closed := done_closed w; received := received w;
             script := script w |}).

(** [cancel := func() { close(done) }]. *)
Definition cancel : M (task_world W) unit := close_done.

Definition next_step (w : task_world W) (rest : list consumer_step)
    : task_world W :=
  {| remote := remote w; consumer_closed := consumer_closed w;
     done_closed := done_closed w; received := received w;
     script := rest |}.

Definition deliver (i : value) (w : task_world W)
    (rest : list consumer_step) : task_world W :=
  {| remote := remote w; consumer_closed := consumer_closed w;
     done_closed := done_closed w; received := received w ++ [i];
     script := rest |}.

(** The function literal handed to [LoopUntil].  Nothing is ever sent
    on [done], so [<-done] completes only once [done] is closed, with
    [ok = false].  When the consumer [receives], the send completes;
    when it [cancels], its [close(done)] runs (a panic of the
    consumer ends the process) and the receive from [done] completes;
    when it does nothing more, the [select] completes only if [done]
    is closed already. *)
Definition send_or_stop (i : value) : M (task_world W) (bool * option error) :=
  fun w =>
    match script w with
    | receives :: rest => (Returns (false, None), deliver i w rest)
    | cancels :: rest =>
        (_ <- cancel ;; ret (true, None)) (next_step w rest)
    | [] =>
        if done_closed w then (Returns (true, None), w) else (Blocks, w)
    end.

(** A Pageable of world [W] used from the world of the task. *)
Definition in_task {A} (c : M W A) : M (task_world W) A :=
  fun w =>
    let '(r, s) := c (remote w) in
    (r, {| remote := s; consumer_closed := consumer_closed w;
           done_closed := done_closed w; received := received w;
           script := script w |}).

Definition pageable_in_task (pageable : Pageable W)
    : Pageable (task_world W) :=
  {| GetPage := fun page limit => in_task (GetPage pageable page limit);
     NextPage := fun page => in_task (NextPage pageable page) |}.

Definition raised {A} (r : result A) : list panic :=
  match r with
  | Panics p => [p]
  | _ => []
  end.

(** How the goroutine of [AsChan] ends. *)
Inductive task_end : Type :=
  | ended (panics : list panic)   (* its deferred calls have run *)
  | parked                        (* it waits forever *)
  | unfinished.                   (* fuel exhausted *)

(** The [go func() { ... }()] of [AsChan]: the result of [LoopUntil]
    is dropped; the deferred calls run last-in first-out, also when
    [LoopUntil] panicked, and each of them may panic in turn. *)
Definition task (fuel : nat) (pageable : Pageable W)
    : task_world W -> task_end * task_world W :=
  fun w =>
    match LoopUntil fuel (pageable_in_task pageable) send_or_stop w with
    | (Blocks, w1) => (parked, w1)
    | (OutOfFuel, w1) => (unfinished, w1)
    | (r, w1) =>
        let '(r2, w2) := close_done w1 in
        let '(r3, w3) := close_consumer w2 in
        (ended (raised r ++ raised r2 ++ raised r3), w3)
    end.

(** When the consumer calls the CancelFunc that [AsChan] returned:
    before the task is scheduled, while it waits in a [select]
    (through [script]), or once it has ended. *)
Record consumer : Type := {
  cancel_first : bool;
  at_select : list consumer_step;
  cancel_last : bool
}.

(** One run of [AsChan] and its consumer: all panics raised, and how
    the world is left.  The consumer acts after the task only if the
    task ended without a panic (a panic ends the process). *)
Definition AsChan (fuel : nat) (pageable : Pageable W) (c : consumer)
    (w : W) : list panic * task_world W :=
  let w0 := make_channels w (at_select c) in
  let '(r0, w1) := if cancel_first c then cancel w0 else (Returns tt, w0) in
  match task fuel pageable w1 with
  | (ended [], w2) =>
      let '(r2, w3) := if cancel_last c then cancel w2 else (Returns tt, w2) in
      (raised r0 ++ raised r2, w3)
  | (ended ps, w2) => (raised r0 ++ ps, w2)
  | (_, w2) => (raised r0, w2)
  end.

(** The number of times the consumer calls the CancelFunc. *)
Definition cancel_calls (c : consumer) : nat :=
  ((if cancel_first c then 1 else 0)
   + List.length (List.filter (fun st => match st with cancels => true | _ => false end)
                              (at_select c))
   + (if cancel_last c then 1 else 0))%nat.

End AsChan.

(** *** Observing the calls

    A Pageable and a predicate wrapped so that every call made to them
    is written, in order, to a log carried next to their world. *)
Inductive call : Type :=
  | call_GetPage (page limit : Z)
  | call_NextPage (page : Page)
  | call_untilFunc (arg : value).

Section Observed.
Context {W : Type}.

Definition logged {A} (ev : call) (c : M W A) : M (W * list call) A :=
  fun wl =>
    let '(r, w') := c (fst wl) in
    (r, (w', snd wl ++ [ev])).

Definition observed_pageable (pageable : Pageable W)
    : Pageable (W * list call) :=
  {| GetPage := fun page limit =>
       logged (call_GetPage page limit) (GetPage pageable page limit);
     NextPage := fun page =>
       logged (call_NextPage page) (NextPage pageable page) |}.

Definition observed_untilFunc (untilFunc : UntilTrueFunc W)
    : UntilTrueFunc (W * list call) :=
  fun arg => logged (call_untilFunc arg) (untilFunc arg).

End Observed.

End pagination.

(** ** What the code uses of [strconv], [net/url] and [net/http] *)

(** [strconv.Itoa]: the decimal spelling of an [int]. *)
Definition strconv_Itoa (i : Z) : string := NilZero.string_of_int (Z.to_int i).

(** [strconv.Atoi], its inverse on what it accepts. *)
Definition strconv_Atoi (s : string) : option Z :=
  option_map Z.of_int (NilZero.int_of_string s).

Module http.

(** A [*url.URL].  Its query is kept as the [url.Values] that
    [URL.Query] parses and [Values.Encode] spells. *)
Record URL : Type := {
  Host : string;
  Path : string;
  RawQuery : gmap string (list string)
}.

Definition MethodGet : string := "GET".

Record Request : Type := {
  Method : string;
  RequestURL : URL
}.

Record Response (body : Type) : Type := {
  StatusCode : Z;
  Status : string;
  Body : body
}.
Arguments StatusCode {body} _.
Arguments Status {body} _.
Arguments Body {body} _.

End http.

(** ** Package [client] ([pkg/client/client.go]) *)
Module client.

Definition TokenEnvName : string := "ANEXIA_TOKEN".

Definition ErrEnvMissing : error := errors_New "environment variable missing".

Definition ErrConfiguration : error := errors_New "could not configure client".

(** A [*http.Client]: the shared [http.DefaultClient] or another one. *)
Inductive http_Client : Type :=
  | DefaultClient
  | other_Client (id : nat).

(** An [io.Writer], by identity. *)
Definition io_Writer : Type := nat.

(** [nil] pointers and interfaces are [None]. *)
Record optionSet : Type := {
  httpClient : option http_Client;
  token : string;
  logWriter : option io_Writer
}.

(** The struct that [New] builds, with the fields of its literal. *)
Record tokenClient : Type := {
  tc_token : string;
  tc_httpClient : option http_Client;
  tc_logWriter : option io_Writer
}.

Section Options.
(** The process environment, with [os.LookupEnv] and [os.Unsetenv]
    on it. *)
Context {E : Type}.
Variable LookupEnv : string -> E -> option string.
Variable Unsetenv : string -> E -> option error * E.

(** [type Option func(o *optionSet) error]: the option set it was
    given, as it leaves it, and its error. *)
Definition Option : Type := optionSet -> M E (optionSet * option error).

Definition TokenFromString (tok : string) : Option :=
  fun o =>
    ret ({| httpClient := httpClient o; token := tok;
            logWriter := logWriter o |}, None).

Definition TokenFromEnv (unset : bool) : Option :=
  fun o env =>
    match LookupEnv TokenEnvName env with
    | None =>
        (Returns (o, Some (fmt_Errorf_w "%w: %s" ErrEnvMissing [TokenEnvName])),
         env)
    | Some tok =>
        let o' := {| httpClient := httpClient o; token := tok;
                     logWriter := logWriter o |} in
        if unset then
          match Unsetenv TokenEnvName env with
          | (Some err, env') =>
              (Returns (o', Some (fmt_Errorf_w "could not unset %s: %w" err
                                               [TokenEnvName])), env')
          | (None, env') => (Returns (o', None), env')
          end
        else (Returns (o', None), env)
    end.

Definition AuthFromEnv (unset : bool) : Option := TokenFromEnv unset.

Definition LogWriter (w : option io_Writer) : Option :=
  fun o =>
    ret ({| httpClient := httpClient o; token := token o;
            logWriter := w |}, None).

Definition HTTPClient (c : option http_Client) : Option :=
  fun o =>
    ret ({| httpClient := c; token := token o;
            logWriter := logWriter o |}, None).

(** [for _, option := range options { if err := option(&optionSet);
    err != nil { return nil, err } }]: the option set after the loop,
    and the error that ended it early. *)
Fixpoint range_options (options : list Option) (o : optionSet)
    : M E (optionSet * option error) :=
  match options with
  | [] => ret (o, None)
  | option :: rest =>
      r <- option o ;;
      let '(o', err) := r in
      match err with
      | Some e => ret (o', Some e)
      | None => range_options rest o'
      end
  end.

Definition New (options : list Option)
    : M E (option tokenClient * option error) :=
  r <- range_options options
         {| httpClient := None; token := ""; logWriter := None |} ;;
  let '(o, err) := r in
  match err with
  | Some e => ret (None, Some e)
  | None =>
      let o :=
        match httpClient o with
        | None => {| httpClient := Some DefaultClient; token := token o;
                     logWriter := logWriter o |}
        | Some _ => o
        end in
      if negb (String.eqb (token o) "") then
        ret (Some {| tc_token := token o; tc_httpClient := httpClient o;
                     tc_logWriter := logWriter o |}, None)
      else
        ret (None, Some (fmt_Errorf_w "%w: token not set" ErrConfiguration []))
  end.

End Options.

(** The interface [Client], its [Do] acting on a world [W]. *)
Record Client (W body : Type) : Type := {
  Do : http.Request -> M W (option (http.Response body) * option error);
  BaseURL : string
}.
Arguments Do {W body} _ _.
Arguments BaseURL {W body} _.

End client.

(** ** [pkg/lbaas/backend/paged.go] and [pkg/lbaas/server/paged.go]

    The two files are the same code up to the names of the page struct
    ([BackendPage], [ServerPage]) and of its element type ([BackendInfo],
    [ServerInfo]); [Info] stands for the element type.  The element types,
    the constant [path] and the struct [api] (of which the code uses the
    field [client]) are declared in other files of the two packages. *)
Module paged.

Section api.
Context {W body Info : Type}.
(** An element stored in an [interface{}]. *)
Variable Info_value : Info -> value.
Variable path : string.
(** [url.Parse], [http.NewRequestWithContext] on a method and the
    URL that [endpoint.String()] spells, and
    [json.NewDecoder(body).Decode(&payload)], which gives the field
    [Page] of the payload it filled. *)
Variable url_Parse : string -> http.URL + error.
Variable NewRequestWithContext : string -> http.URL -> http.Request + error.

Record BackendPage : Type := {
  Page : Z;
  TotalItems : Z;
  TotalPages : Z;
  Limit : Z;
  Data : list Info
}.

Variable Decode : body -> BackendPage + error.

Record api : Type := { client : client.Client W body }.

Definition Num (f : BackendPage) : Z := Page f.
Definition Size (f : BackendPage) : Z := Limit f.
Definition Total (f : BackendPage) : Z := TotalPages f.
Definition Content (f : BackendPage) : value := go_slice (List.map Info_value (Data f)).

(** A [BackendPage] returned as a [pagination.Page]. *)
Definition as_Page (f : BackendPage) : pagination.Page :=
  {| pagination.Num := Num f; pagination.Size := Size f;
     pagination.Total := Total f; pagination.Content := Content f |}.

Definition GetPage (a : api) (page limit : Z)
    : M W (option pagination.Page * option error) :=
  match url_Parse (client.BaseURL (client a)) with
  | inr err => ret (None, Some (fmt_Errorf_w "could not parse URL: %w" err []))
  | inl endpoint =>
      let query := http.RawQuery endpoint in
      let query := <[ "page" := [strconv_Itoa page] ]> query in
      let query := <[ "limit" := [strconv_Itoa limit] ]> query in
      let endpoint :=
        {| http.Host := http.Host endpoint; http.Path := path;
           http.RawQuery := query |} in
      match NewRequestWithContext http.MethodGet endpoint with
      | inr err =>
          ret (None, Some (fmt_Errorf_w "could not create request object: %w" err []))
      | inl req =>
          r <- client.Do (client a) req ;;
          let '(response, err) := r in
          match err with
          | Some err =>
              ret (None, Some (fmt_Errorf_w "error when executing request: %w" err []))
          | None =>
              match response with
              | None => do_panic nil_dereference
              | Some response =>
                  if (500 <=? http.StatusCode response)
                     && (http.StatusCode response <? 600)
                  then
                    ret (None,
                         Some (fmt_Errorf "could not get load balancer frontends %s"
                                          [http.Status response]))
                  else
                    match Decode (http.Body response) with
                    | inr err =>
                        ret (None,
                             Some (fmt_Errorf_w
                               "could not parse load balancer frontend list response: %w"
                               err []))
                    | inl payload_Page => ret (Some (as_Page payload_Page), None)
                    end
              end
          end
      end
  end.

Definition NextPage (a : api) (page : pagination.Page)
    : M W (option pagination.Page * option error) :=
  GetPage a (pagination.Num page) (pagination.Size page).

(** [api] as a [pagination.Pageable]. *)
Definition as_Pageable (a : api) : pagination.Pageable W :=
  {| pagination.GetPage := GetPage a; pagination.NextPage := NextPage a |}.

End api.

End paged.

(** ** Pageables, predicates and servers to run the code on *)
Module doubles.
Import pagination.

(** A Pageable over a fixed collection, given page by page: page
    [number] (from 1) holds [pages !! (number - 1)]; [NextPage] fetches
    the page after the one it is given. *)
Definition collection_GetPage (pages : list (list value)) (number limit : Z)
    : M unit (option Page * option error) :=
  if (1 <=? number) && (number <=? Z.of_nat (length pages)) then
    match pages !! Z.to_nat (number - 1) with
    | Some elems =>
        ret (Some {| Num := number; Size := limit;
                     Total := Z.of_nat (length pages);
                     Content := go_slice elems |}, None)
    | None => ret (None, Some (errors_New "no such page"))
    end
  else ret (None, Some (errors_New "no such page")).

Definition collection (pages : list (list value)) : Pageable unit :=
  {| GetPage := collection_GetPage pages;
     NextPage := fun page => collection_GetPage pages (Num page + 1) (Size page) |}.

Definition ints (l : list Z) : list value := List.map go_int l.

(** Pages of sizes 3, 3 and 2. *)
Definition three_pages : Pageable unit :=
  collection [ints [1; 2; 3]; ints [4; 5; 6]; ints [7; 8]].

(** Page 1 = [1,2,3] and page 2 = [4,5]. *)
Definition two_pages : Pageable unit :=
  collection [ints [1; 2; 3]; ints [4; 5]].

(** A Pageable whose every fetch fails with [e]. *)
Definition failing (e : error) : Pageable unit :=
  {| GetPage := fun _ _ => ret (None, Some e);
     NextPage := fun _ => ret (None, Some e) |}.

(** A Pageable whose page 1 has the content [c], whatever it is. *)
Definition with_content (c : value) : Pageable unit :=
  {| GetPage := fun number limit =>
       ret (Some {| Num := number; Size := limit; Total := 1; Content := c |}, None);
     NextPage := fun _ => ret (None, Some (errors_New "no such page")) |}.

(** The integer an element is, handed over as it is or reflected. *)
Definition int_of (v : value) : option Z :=
  match v with
  | go_int n | go_reflect_Value (go_int n) => Some n
  | _ => None
  end.

(** The predicate [x == n]. *)
Definition equals (n : Z) : UntilTrueFunc unit :=
  fun v =>
    ret (match int_of v with Some m => m =? n | None => false end, None).

(** A predicate that fails with [e] on [n] and is false elsewhere. *)
Definition fails_on (n : Z) (e : error) : UntilTrueFunc unit :=
  fun v =>
    ret (false,
         match int_of v with
         | Some m => if m =? n then Some e else None
         | None => None
         end).

(** A server that answers the page and limit it is asked for, out of
    [total] pages, with no elements; its bodies are decoded pages. *)
Definition asked (req : http.Request) (key : string) : option Z :=
  match http.RawQuery (http.RequestURL req) !! key with
  | Some (s :: _) => strconv_Atoi s
  | _ => None
  end.

Definition echo_Do (total : Z) (req : http.Request)
    : M unit (option (http.Response (@paged.BackendPage nat)) * option error) :=
  match asked req "page", asked req "limit" with
  | Some p, Some l =>
      ret (Some {| http.StatusCode := 200; http.Status := "200 OK";
                   http.Body := {| paged.Page := p; paged.TotalItems := 0;
                                   paged.TotalPages := total; paged.Limit := l;
                                   paged.Data := [] |} |}, None)
  | _, _ => ret (None, Some (errors_New "bad request"))
  end.

Definition echo_client (total : Z) : client.Client unit (@paged.BackendPage nat) :=
  {| client.Do := echo_Do total; client.BaseURL := "https://engine.anexia-it.com" |}.

Definition parse_any (s : string) : http.URL + error :=
  inl {| http.Host := s; http.Path := ""; http.RawQuery := ∅ |}.

Definition new_request (method : string) (u : http.URL) : http.Request + error :=
  inl {| http.Method := method; http.RequestURL := u |}.

Definition echo_api (total : Z) : @paged.api unit (@paged.BackendPage nat) :=
  {| paged.client := echo_client total |}.

Definition echo_GetPage (total : Z) :=
  paged.GetPage (fun n : nat => go_int (Z.of_nat n)) "/api/LBaaS/v1/backend.json"
                parse_any new_request inl (echo_api total).

Definition echo_NextPage (total : Z) :=
  paged.NextPage (fun n : nat => go_int (Z.of_nat n)) "/api/LBaaS/v1/backend.json"
                 parse_any new_request inl (echo_api total).

(** A process environment as a map, with [os.LookupEnv] and
    [os.Unsetenv]. *)
Definition LookupEnv (key : string) (env : gmap string string) : option string :=
  env !! key.

Definition Unsetenv (key : string) (env : gmap string string)
    : option error * gmap string string :=
  (None, delete key env).

End doubles.

(** ** The rest of [pkg/client/client.go]: [dumpRequest], [handleRequest] *)
Module transport.

(** An [*http.Request] with what [dumpRequest] touches besides its
    method and URL: the header, a map that [http.NewRequest] has made
    (it is not [nil]), and the body. *)
Record Request (rbody : Type) : Type := {
  Line : http.Request;
  Header : gmap string (list string);
  Body : rbody
}.
Arguments Line {rbody} _.
Arguments Header {rbody} _.
Arguments Body {rbody} _.

Definition StatusOK : Z := 200.
Definition StatusMultipleChoices : Z := 300.

(** The struct [ResponseError], its two anonymous structs flattened. *)
Record ResponseError (rbody body : Type) : Type := {
  Request_sent : Request rbody;
  Response_got : http.Response body;
  ErrorData_Code : Z;
  ErrorData_Message : string;
  ErrorData_Validation : gmap string string;
  Debug_Source : string
}.

(** What a JSON error body decodes to: code, message, validation and
    debug source. *)
Definition decoded_error : Type := Z * string * gmap string string * string.

(** The [error] that [handleRequest] returns: one of the errors above,
    or a [*ResponseError]. *)
Inductive failure (rbody body : Type) : Type :=
  | plain (e : error)
  | from_api (r : ResponseError rbody body).
Arguments plain {rbody body} e.
Arguments from_api {rbody body} r.

Section handleRequest.
Context {W rbody body : Type}.
(** [c.Do] of the [*http.Client]; [httputil.DumpRequestOut] with the
    body, which gives the dump and the body it leaves in the request;
    [httputil.DumpResponse]; and [json.NewDecoder(body).Decode] into a
    [ResponseError]. *)
Variable Do : Request rbody -> M W (option (http.Response body) * option error).
Variable DumpRequestOut : Request rbody -> (string * rbody) + error.
Variable DumpResponse : http.Response body -> bool -> string + error.
Variable Decode : body -> decoded_error + error.

(** [req.Clone] and [clonedRequest.Header.Set("Authorization", "REDACTED")]. *)
Definition redacted (req : Request rbody) : Request rbody :=
  {| Line := Line req;
     Header := <[ "Authorization" := ["REDACTED"] ]> (Header req);
     Body := Body req |}.

(** The dump and the error, and the request as [dumpRequest] leaves it:
    [req.Body = clonedRequest.Body] on success. *)
Definition dumpRequest (req : Request rbody)
    : (option string * option error) * Request rbody :=
  match DumpRequestOut (redacted req) with
  | inr err => ((None, Some err), req)
  | inl (dumpedRequest, body_left) =>
      ((Some dumpedRequest, None),
       {| Line := Line req; Header := Header req; Body := body_left |})
  end.

(** The world of [handleRequest]: the network [c.Do] acts on, and what
    has been written to the log writer, each [fmt.Fprintf] as its format
    and its argument. *)
Definition Fprintf (format arg : string) : M (W * list (string * string)) unit :=
  fun wl => (Returns tt, (fst wl, snd wl ++ [(format, arg)])).

Definition on_network {A} (c : M W A) : M (W * list (string * string)) A :=
  fun wl => let '(r, w') := c (fst wl) in (r, (w', snd wl)).

(** From [if logWriter != nil && response != nil] to the end. *)
Definition log_response (logWriter : option client.io_Writer)
    (response : option (http.Response body)) (err : option (failure rbody body))
    : M (W * list (string * string))
        (option (http.Response body) * option (failure rbody body)) :=
  match logWriter, response with
  | Some _, Some resp =>
      match DumpResponse resp (match err with None => true | Some _ => false end) with
      | inl respBytes =>
          _ <- Fprintf "response: %s\n" respBytes ;; ret (response, err)
      | inr _ => ret (response, err)
      end
  | _, _ => ret (response, err)
  end.

(** The first statement, [if logWriter != nil { ... }]: the request as
    [dumpRequest] leaves it. *)
Definition log_request (req : Request rbody) (logWriter : option client.io_Writer)
    : M (W * list (string * string)) (Request rbody) :=
  match logWriter with
  | Some _ =>
      let '((reqBytes, dumpErr), req') := dumpRequest req in
      match dumpErr with
      | None =>
          _ <- Fprintf "request: %s\n"
                 (match reqBytes with Some b => b | None => "" end) ;;
          ret req'
      | Some _ => ret req'
      end
  | None => ret req
  end.

(** From [response, err := c.Do(req)] on. *)
Definition send_request (req : Request rbody) (logWriter : option client.io_Writer)
    : M (W * list (string * string))
        (option (http.Response body) * option (failure rbody body)) :=
  r <- on_network (Do req) ;;
  let '(response, err) := r in
  match err with
  | Some e => log_response logWriter response (Some (plain e))
  | None =>
      match response with
      | None => do_panic nil_dereference
      | Some resp =>
          if (http.StatusCode resp <? StatusOK)
             || (StatusMultipleChoices <=? http.StatusCode resp)
          then
            match Decode (http.Body resp) with
            | inr decodeErr =>
                ret (response,
                     Some (plain (fmt_Errorf_w "could not decode error response: %w"
                                               decodeErr [])))
            | inl (code, message, validation, source) =>
                log_response logWriter response
                  (Some (from_api {| Request_sent := req; Response_got := resp;
                                     ErrorData_Code := code;
                                     ErrorData_Message := message;
                                     ErrorData_Validation := validation;
                                     Debug_Source := source |}))
            end
          else log_response logWriter response None
      end
  end.

Definition handleRequest (req : Request rbody) (logWriter : option client.io_Writer)
    : M (W * list (string * string))
        (option (http.Response body) * option (failure rbody body)) :=
  req <- log_request req logWriter ;;
  send_request req logWriter.

End handleRequest.

End transport.

(** ** Package [zone]: the record calls ([ListRecords], [NewRecord],
    [UpdateRecord], [DeleteRecord])

    The types [Record] (here [ZoneRecord]) and [Zone], the struct [api]
    (of which the code uses the field [client]), the constant
    [pathPrefix] and the package [uuid] are declared elsewhere. *)
Module zone.

Record RecordRequest : Type := {
  Name : string;
  Type_ : string;
  RData : string;
  Region : string;
  TTL : Z
}.

(** The interface [client.Client] with requests that carry a body:
    [None] is the [nil] body, [Some data] a buffer that holds [data]. *)
Record Client (W body : Type) : Type := {
  Do : transport.Request (option string)
       -> M W (option (http.Response body) * option error);
  BaseURL : string
}.
Arguments Do {W body} _ _.
Arguments BaseURL {W body} _.

Definition MethodPost : string := "POST".
Definition MethodPut : string := "PUT".
Definition MethodDelete : string := "DELETE".

Section api.
Context {W body ZoneRecord Zone UUID : Type}.
Variable pathPrefix : string.
(** [Zone{}]. *)
Variable zero_Zone : Zone.
(** [uuid.UUID.String], which the verb [%s] calls. *)
Variable UUID_String : UUID -> string.
Variable url_Parse : string -> http.URL + error.
(** [json.NewEncoder(&requestData).Encode(record)]: the bytes it leaves
    in the buffer, or its error; and an [error] as the value that
    [fmt.Sprintf] is given. *)
Variable Encode : RecordRequest -> string + error.
Variable error_value : error -> value.
Variable Decode_records : body -> list ZoneRecord + error.
Variable Decode_zone : body -> Zone + error.
(** [Body.Close]. *)
Variable Close : body -> M W (option error).

Record api : Type := { client : Client W body }.

(** [http.NewRequestWithContext] on one of the method constants: it
    fails with the error of [url.Parse] on the URL, and else gives the
    request with this method, URL and body and an empty header. *)
Definition NewRequestWithContext (method url : string) (data : option string)
    : transport.Request (option string) + error :=
  match url_Parse url with
  | inr err => inr err
  | inl u =>
      inl {| transport.Line := {| http.Method := method; http.RequestURL := u |};
             transport.Header := ∅;
             transport.Body := data |}
  end.

Definition is_5xx (status : Z) : bool := (500 <=? status) && (status <? 600).

(** [fmt.Sprintf("%s%s/%s/records", a.client.BaseURL(), pathPrefix, zone)]. *)
Definition records_url (a : api) (zone : string) : string :=
  String.append (BaseURL (client a))
    (String.append pathPrefix
       (String.append "/" (String.append zone "/records"))).

(** [fmt.Sprintf("%s%s/%s/records/%s", a.client.BaseURL(), pathPrefix, zone, id)]. *)
Definition record_url (a : api) (zone : string) (id : UUID) : string :=
  String.append (BaseURL (client a))
    (String.append pathPrefix
       (String.append "/"
          (String.append zone (String.append "/records/" (UUID_String id))))).

Definition ListRecords (a : api) (zone : string)
    : M W (option (list ZoneRecord) * option error) :=
  match NewRequestWithContext http.MethodGet (records_url a zone) None with
  | inr err =>
      ret (None, Some (fmt_Errorf_w "could not create record list request: %w" err []))
  | inl req =>
      r <- Do (client a) req ;;
      let '(httpResponse, err) := r in
      match err with
      | Some err =>
          ret (None,
               Some (fmt_Errorf_w "could not execute record list request: %w" err []))
      | None =>
          match httpResponse with
          | None => do_panic nil_dereference
          | Some httpResponse =>
              if is_5xx (http.StatusCode httpResponse) then
                ret (None,
                     Some (fmt_Errorf
                             "could not execute record list request, got response %s"
                             [http.Status httpResponse]))
              else
                let decoded := Decode_records (http.Body httpResponse) in
                _ <- Close (http.Body httpResponse) ;;
                match decoded with
                | inr err =>
                    ret (None,
                         Some (fmt_Errorf_w "could not decode zone list response: %w"
                                            err []))
                | inl responsePayload => ret (Some responsePayload, None)
                end
          end
      end
  end.

Definition NewRecord (a : api) (zone : string) (record : RecordRequest)
    : M W (Zone * option error) :=
  match Encode record with
  | inr err =>
      do_panic (panic_Sprintf "could not create request data for create zone: %v"
                              (error_value err))
  | inl requestData =>
  match NewRequestWithContext MethodPost (records_url a zone) (Some requestData) with
  | inr err =>
      ret (zero_Zone,
           Some (fmt_Errorf_w "could not create record create request: %w" err []))
  | inl req =>
      r <- Do (client a) req ;;
      let '(httpResponse, err) := r in
      match err with
      | Some err =>
          ret (zero_Zone,
               Some (fmt_Errorf_w "could not execute record create request: %w" err []))
      | None =>
          match httpResponse with
          | None => do_panic nil_dereference
          | Some httpResponse =>
              if is_5xx (http.StatusCode httpResponse) then
                ret (zero_Zone,
                     Some (fmt_Errorf
                             "could not execute record create request, got response %s"
                             [http.Status httpResponse]))
              else
                let decoded := Decode_zone (http.Body httpResponse) in
                _ <- Close (http.Body httpResponse) ;;
                match decoded with
                | inr err =>
                    ret (zero_Zone,
                         Some (fmt_Errorf_w "could not decode record create response: %w"
                                            err []))
                | inl responsePayload => ret (responsePayload, None)
                end
          end
      end
  end
  end.

Definition UpdateRecord (a : api) (zone : string) (id : UUID) (record : RecordRequest)
    : M W (Zone * option error) :=
  match Encode record with
  | inr err =>
      do_panic (panic_Sprintf "could not create request data for update zone: %v"
                              (error_value err))
  | inl requestData =>
  match NewRequestWithContext MethodPut (record_url a zone id) (Some requestData) with
  | inr err =>
      ret (zero_Zone,
           Some (fmt_Errorf_w "could not create record update request: %w" err []))
  | inl req =>
      r <- Do (client a) req ;;
      let '(httpResponse, err) := r in
      match err with
      | Some err =>
          ret (zero_Zone,
               Some (fmt_Errorf_w "could not execute record update request: %w" err []))
      | None =>
          match httpResponse with
          | None => do_panic nil_dereference
          | Some httpResponse =>
              if is_5xx (http.StatusCode httpResponse) then
                ret (zero_Zone,
                     Some (fmt_Errorf
                             "could not execute record update request, got response %s"
                             [http.Status httpResponse]))
              else
                let decoded := Decode_zone (http.Body httpResponse) in
                _ <- Close (http.Body httpResponse) ;;
                match decoded with
                | inr err =>
                    ret (zero_Zone,
                         Some (fmt_Errorf_w "could not decode record update response: %w"
                                            err []))
                | inl responsePayload => ret (responsePayload, None)
                end
          end
      end
  end
  end.

Definition DeleteRecord (a : api) (zone : string) (id : UUID) : M W (option error) :=
  match NewRequestWithContext MethodDelete (record_url a zone id) None with
  | inr err =>
      ret (Some (fmt_Errorf_w "could not create record delete request: %w" err []))
  | inl req =>
      r <- Do (client a) req ;;
      let '(httpResponse, err) := r in
      match err with
      | Some err =>
          ret (Some (fmt_Errorf_w "could not execute record delete request: %w" err []))
      | None =>
          match httpResponse with
          | None => do_panic nil_dereference
          | Some httpResponse =>
              if is_5xx (http.StatusCode httpResponse) then
                ret (Some (fmt_Errorf
                             "could not execute record delete request, got response %s"
                             [http.Status httpResponse]))
              else Close (http.Body httpResponse)
          end
      end
  end.

End api.

End zone.

(** ** Notions the properties are stated with *)

(** What a [LoopUntil] that reached its [switch] panics with. *)
Definition switch_panic (page : pagination.Page) : panic :=
  match reflect.Kind (reflect.ValueOf (pagination.Content page)) with
  | Array | Slice => ValueError "reflect.Value.Len" Struct
  | _ =>
      panic_Sprintf
        "The page content is supposed to be of type slice or array but was %T"
        (pagination.Content page)
  end.

(** The numbers of the pages that [n] calls of a [NextPage] give, each
    call on the page the call before it gave, the first on [page]; the
    walk stops at a call that gives no page. *)
Fixpoint walk {W : Type} (n : nat)
    (next : pagination.Page -> M W (option pagination.Page * option error))
    (page : pagination.Page) (w : W) : list Z :=
  match n with
  | O => []
  | S n' =>
      match next page w with
      | (Returns (Some page', None), w') =>
          pagination.Num page' :: walk n' next page' w'
      | _ => []
      end
  end.

(** The option set that [New] starts from. *)
Definition no_options : client.optionSet :=
  {| client.httpClient := None; client.token := ""; client.logWriter := None |}.

(** In the loop of [New] over [options], started on the option set [o0]
    in the environment [env], some option ran, returned no error, and
    changed the token to [tok]. *)
Definition token_set_by {E : Type} (options : list (@client.Option E))
    (o0 : client.optionSet) (env : E) (tok : string) : Prop :=
  exists before option after o_in env_in o_out env_out,
    options = before ++ option :: after
    /\ client.range_options before o0 env = (Returns (o_in, None), env_in)
    /\ option o_in env_in = (Returns (o_out, None), env_out)
    /\ client.token o_in <> tok
    /\ client.token o_out = tok.


(** A client that answers every request with [response], and one whose
    every request fails with [e]. *)
Definition answering {body : Type} (base : string) (response : http.Response body)
    : client.Client unit body :=
  {| client.Do := fun _ => ret (Some response, None); client.BaseURL := base |}.

Definition unreachable {body : Type} (base : string) (e : error)
    : client.Client unit body :=
  {| client.Do := fun _ => ret (None, Some e); client.BaseURL := base |}.

(** The pages a fetch gives carry the number and the size it was asked
    for. *)
Definition answers_as_asked {W : Type}
    (fetch : Z -> Z -> M W (option pagination.Page * option error)) : Prop :=
  forall number limit w page err w',
    fetch number limit w = (Returns (Some page, err), w') ->
    pagination.Num page = number /\ pagination.Size page = limit.

(** An option that, when it returns, leaves the token as it found it. *)
Definition keeps_token {E : Type} (option : @client.Option E) : Prop :=
  forall o env o' err env',
    option o env = (Returns (o', err), env') -> client.token o' = client.token o.

(** A request with its [Authorization] header set to [credentials]. *)
Definition authorized {rbody : Type} (credentials : list string)
    (req : transport.Request rbody) : transport.Request rbody :=
  {| transport.Line := transport.Line req;
     transport.Header := <[ "Authorization" := credentials ]> (transport.Header req);
     transport.Body := transport.Body req |}.

(** The lines that [handleRequest] wrote with the format [format]. *)
Definition written (format : string) (out : list (string * string)) : list string :=
  List.map snd (List.filter (fun line => String.eqb (fst line) format) out).

(** A zone client that answers every request with [response], and a
    [Close] that counts its calls in the world. *)
Definition zone_answering {body : Type} (base : string) (response : http.Response body)
    : zone.Client nat body :=
  {| zone.Do := fun _ => ret (Some response, None); zone.BaseURL := base |}.

Definition counted_Close {body : Type} (_ : body) : M nat (option error) :=
  fun closes => (Returns None, S closes).

(** A Pageable whose fetch never returns. *)
Definition hanging : pagination.Pageable unit :=
  {| pagination.GetPage := fun _ _ => lift Blocks;
     pagination.NextPage := fun _ => lift Blocks |}.

(** A request with credentials, a [DumpRequestOut] that spells the method
    and leaves the body, a [DumpResponse] that spells the status, a
    decoder that fails, and a [Do] that answers every request with
    [response]. *)
Definition credentialed_request : transport.Request string :=
  {| transport.Line :=
       {| http.Method := "GET";
          http.RequestURL := {| http.Host := "engine.anexia-it.com";
                                http.Path := "/api/core/v1/location.json";
                                http.RawQuery := ∅ |} |};
     transport.Header := {[ "Authorization" := ["Token secret"] ]};
     transport.Body := "" |}.

Definition dump_method (req : transport.Request string) : (string * string) + error :=
  inl (http.Method (transport.Line req), transport.Body req).

Definition dump_status (response : http.Response string) (_ : bool) : string + error :=
  inl (http.Status response).

Definition not_json (_ : string) : transport.decoded_error + error :=
  inr (errors_New "invalid character '<' looking for beginning of value").

Definition always_answers (response : http.Response string)
    : transport.Request string -> M unit (option (http.Response string) * option error) :=
  fun _ => ret (Some response, None).

(** * Properties *)

(** ** Errors *)

Lemma strings_eqb_refl (l : list string) : strings_eqb l l = true.
Proof.
  induction l as [|s l IH]; simpl; [reflexivity|].
  rewrite String.eqb_refl. exact IH.
Qed.

Lemma error_eqb_refl (e : error) : error_eqb e e = true.
Proof.
  induction e as [t|f a|f w IH a]; simpl.
  - apply String.eqb_refl.
  - now rewrite String.eqb_refl, strings_eqb_refl.
  - now rewrite String.eqb_refl, IH, strings_eqb_refl.
Qed.

Lemma errors_Is_refl (e : error) : errors_Is e e = true.
Proof. destruct e; simpl; rewrite ?String.eqb_refl, ?error_eqb_refl, ?strings_eqb_refl; reflexivity. Qed.

Lemma errors_Is_wrapped (f : string) (w target : error) (a : list string) :
  errors_Is w target = true -> errors_Is (fmt_Errorf_w f w a) target = true.
Proof. intros H. simpl. rewrite H. apply orb_true_r. Qed.

(** ** [LoopUntil] *)
Section LoopUntil_facts.
Import pagination.
Context {W : Type}.
Implicit Types (pageable : Pageable W) (untilFunc : UntilTrueFunc W).

(** The condition of the [for] statement reflects on [content], a
    [reflect.Value], not on the slice it holds: its [Len] panics before
    the first round. *)
Lemma for_loop_condition_panics fuel content untilFunc i (w : W) :
  for_loop (S fuel) content untilFunc i w
  = (Panics (ValueError "reflect.Value.Len" Struct), w).
Proof. reflexivity. Qed.

(** All that [LoopUntil] does, by what its one [GetPage] gives. *)
Lemma LoopUntil_outcome fuel pageable untilFunc (w : W) :
  LoopUntil (S fuel) pageable untilFunc w
  = match GetPage pageable 1 10 w with
    | (Returns (_, Some e), w') => (Returns (Some e), w')
    | (Returns (None, None), w') => (Panics nil_dereference, w')
    | (Returns (Some page, None), w') => (Panics (switch_panic page), w')
    | (Panics p, w') => (Panics p, w')
    | (Blocks, w') => (Blocks, w')
    | (OutOfFuel, w') => (OutOfFuel, w')
    end.
Proof.
  unfold LoopUntil, bind.
  destruct (GetPage pageable 1 10 w) as [[[page err]| | |] w']; try reflexivity.
  destruct page as [page|], err as [e|]; try reflexivity.
  unfold switch_panic.
  destruct page as [n s t c]; destruct c; reflexivity.
Qed.

(** A content that is an array or a slice makes [LoopUntil] panic. *)
Lemma LoopUntil_sequence_panics fuel pageable untilFunc (w w' : W) page :
  GetPage pageable 1 10 w = (Returns (Some page, None), w') ->
  reflect.Kind (reflect.ValueOf (Content page)) = Array
  \/ reflect.Kind (reflect.ValueOf (Content page)) = Slice ->
  LoopUntil (S fuel) pageable untilFunc w
  = (Panics (ValueError "reflect.Value.Len" Struct), w').
Proof.
  intros Hget Hkind. rewrite LoopUntil_outcome, Hget.
  unfold switch_panic. destruct Hkind as [-> | ->]; reflexivity.
Qed.

(** The calls that [LoopUntil] makes, whatever it is run on and with
    whatever bound: one [GetPage(ctx, 1, 10)], and no other. *)
Lemma LoopUntil_calls fuel pageable untilFunc (w : W) :
  snd (snd (LoopUntil fuel (observed_pageable pageable)
                      (observed_untilFunc untilFunc) (w, [])))
  = [call_GetPage 1 10].
Proof.
  unfold LoopUntil, bind, observed_pageable, logged; simpl.
  destruct (GetPage pageable 1 10 w) as [[[page err]| | |] w']; try reflexivity.
  destruct err as [e|]; [reflexivity|].
  destruct page as [page|]; [|reflexivity].
  destruct page as [n s t c]; destruct fuel; destruct c; reflexivity.
Qed.

End LoopUntil_facts.

Section LoopUntil_claims.
Import pagination doubles.

(** On a Pageable over a fixed collection, whatever page 1 holds and
    whatever the predicate: [LoopUntil] fetches page 1 and panics in
    the condition of its loop, the predicate not called. *)
Lemma LoopUntil_collection_panics fuel elems rest (untilFunc : UntilTrueFunc unit) :
  LoopUntil (S fuel) (observed_pageable (collection (elems :: rest)))
            (observed_untilFunc untilFunc) (tt, [])
  = (Panics (ValueError "reflect.Value.Len" Struct), (tt, [call_GetPage 1 10])).
Proof.
  apply LoopUntil_sequence_panics
    with (page := {| Num := 1; Size := 10;
                     Total := Z.of_nat (length (elems :: rest));
                     Content := go_slice elems |}).
  - unfold observed_pageable, logged, collection, collection_GetPage.
    cbn [GetPage fst snd Z.sub Z.to_nat Z.leb Z.compare Pos.compare Z.add Z.opp
         Z.pos_sub andb lookup].
    assert ((1 <=? Z.of_nat (length (elems :: rest))) = true) as ->
      by (apply Z.leb_le; cbn [length]; lia).
    reflexivity.
  - right; reflexivity.
Qed.

(** C1, the code at a failing input.  Pages of sizes 3, 3 and 2 and the
    predicate [x == 2], true only on the second element of page 1:
    [LoopUntil] makes the one call [GetPage(ctx, 1, 10)] and then, where
    the claim has it return success, panics with the [ValueError] of
    [reflect.Value.Len] on a struct, the predicate never called. *)
Theorem LoopUntil_match_on_page_one_panics (fuel : nat) :
  LoopUntil (S fuel) (observed_pageable three_pages)
            (observed_untilFunc (equals 2)) (tt, [])
  = (Panics (ValueError "reflect.Value.Len" Struct), (tt, [call_GetPage 1 10])).
Proof. apply LoopUntil_collection_panics. Qed.

(** C2, the code at a failing input.  Page 1 = [1,2,3], page 2 = [4,5]
    and the predicate [x == 4], false on all of page 1: where the claim
    has [LoopUntil] return [ErrConditionNeverMet], it panics; page 1 is
    the only page fetched. *)
Theorem LoopUntil_no_match_on_page_one_panics (fuel : nat) :
  LoopUntil (S fuel) (observed_pageable two_pages)
            (observed_untilFunc (equals 4)) (tt, [])
  = (Panics (ValueError "reflect.Value.Len" Struct), (tt, [call_GetPage 1 10]))
  /\ Panics (ValueError "reflect.Value.Len" Struct)
     <> Returns (Some ErrConditionNeverMet).
Proof. split; [apply LoopUntil_collection_panics | discriminate]. Qed.

(** C7, the code at a failing input.  A predicate that fails with [e]
    on the second element of page 1: where the claim has [LoopUntil]
    return [e], it panics, the predicate never called. *)
Theorem LoopUntil_predicate_error_panics (fuel : nat) (e : error) :
  LoopUntil (S fuel) (observed_pageable three_pages)
            (observed_untilFunc (fails_on 2 e)) (tt, [])
  = (Panics (ValueError "reflect.Value.Len" Struct), (tt, [call_GetPage 1 10]))
  /\ Panics (ValueError "reflect.Value.Len" Struct) <> Returns (Some e).
Proof. split; [apply LoopUntil_collection_panics | discriminate]. Qed.

End LoopUntil_claims.

(** C6.  When the first [GetPage] of a Pageable fails with [e],
    [LoopUntil] returns exactly [e], whatever the bound on its loop, and
    the only call made is that [GetPage(ctx, 1, 10)]: the predicate is
    evaluated zero times. *)
Theorem LoopUntil_first_fetch_error {W : Type} (fuel : nat)
    (pageable : pagination.Pageable W) (untilFunc : pagination.UntilTrueFunc W)
    (w w' : W) (page : option pagination.Page) (e : error) :
  pagination.GetPage pageable 1 10 w = (Returns (page, Some e), w') ->
  pagination.LoopUntil fuel (pagination.observed_pageable pageable)
                       (pagination.observed_untilFunc untilFunc) (w, [])
  = (Returns (Some e), (w', [pagination.call_GetPage 1 10])).
Proof.
  intros Hget.
  unfold pagination.LoopUntil, bind, pagination.observed_pageable, pagination.logged.
  simpl. rewrite Hget. reflexivity.
Qed.

Lemma LoopUntil_first_fetch_error_witness :
  pagination.GetPage (doubles.failing (errors_New "connection refused")) 1 10 tt
  = (Returns (None, Some (errors_New "connection refused")), tt)
  /\ pagination.LoopUntil 0
       (pagination.observed_pageable (doubles.failing (errors_New "connection refused")))
       (pagination.observed_untilFunc (doubles.equals 1)) (tt, [])
     = (Returns (Some (errors_New "connection refused")),
        (tt, [pagination.call_GetPage 1 10])).
Proof.
  split; [reflexivity|].
  apply (LoopUntil_first_fetch_error 0 (doubles.failing (errors_New "connection refused"))
           (doubles.equals 1) tt tt None (errors_New "connection refused")).
  reflexivity.
Defined.

(** C8.  When the page fetched has a content that is neither a slice nor
    an array, [LoopUntil] panics with the message of its [default] case:
    it does not return, neither [nil] nor an error, and the predicate is
    not called. *)
Theorem LoopUntil_panics_unless_sequence {W : Type} (fuel : nat)
    (pageable : pagination.Pageable W) (untilFunc : pagination.UntilTrueFunc W)
    (w w' : W) (page : pagination.Page) :
  pagination.GetPage pageable 1 10 w = (Returns (Some page, None), w') ->
  reflect.Kind (reflect.ValueOf (pagination.Content page)) <> Array ->
  reflect.Kind (reflect.ValueOf (pagination.Content page)) <> Slice ->
  pagination.LoopUntil fuel (pagination.observed_pageable pageable)
                       (pagination.observed_untilFunc untilFunc) (w, [])
  = (Panics (panic_Sprintf
       "The page content is supposed to be of type slice or array but was %T"
       (pagination.Content page)),
     (w', [pagination.call_GetPage 1 10])).
Proof.
  intros Hget Harray Hslice.
  unfold pagination.LoopUntil, bind, pagination.observed_pageable, pagination.logged.
  simpl. rewrite Hget. simpl.
  destruct page as [n s t c]; simpl in *.
  destruct c; try reflexivity; [destruct Harray | destruct Hslice]; reflexivity.
Qed.

Lemma LoopUntil_panics_unless_sequence_witness :
  pagination.GetPage (doubles.with_content (go_string "not a list")) 1 10 tt
  = (Returns (Some {| pagination.Num := 1; pagination.Size := 10;
                      pagination.Total := 1;
                      pagination.Content := go_string "not a list" |}, None), tt)
  /\ pagination.LoopUntil 0
       (pagination.observed_pageable (doubles.with_content (go_string "not a list")))
       (pagination.observed_untilFunc (doubles.equals 1)) (tt, [])
     = (Panics (panic_Sprintf
          "The page content is supposed to be of type slice or array but was %T"
          (go_string "not a list")),
        (tt, [pagination.call_GetPage 1 10])).
Proof.
  split; [reflexivity|].
  apply (LoopUntil_panics_unless_sequence 0
           (doubles.with_content (go_string "not a list")) (doubles.equals 1) tt tt
           {| pagination.Num := 1; pagination.Size := 10; pagination.Total := 1;
              pagination.Content := go_string "not a list" |});
    [reflexivity | discriminate | discriminate].
Defined.

(** C9.  [HasNext] is true exactly when the number of the page is below
    the total number of pages; on a last page, whose number is the total,
    it is false. *)
Theorem HasNext_iff_below_total (page : pagination.Page) :
  (pagination.HasNext page = true <-> pagination.Num page < pagination.Total page)
  /\ (forall last size content,
        pagination.HasNext {| pagination.Num := last; pagination.Size := size;
                              pagination.Total := last;
                              pagination.Content := content |} = false).
Proof.
  unfold pagination.HasNext. split.
  - apply Z.ltb_lt.
  - intros last size content. simpl. apply Z.ltb_irrefl.
Qed.

(** ** [AsChan] *)
Section AsChan_facts.
Import pagination.
Context {W : Type}.
Implicit Types (pageable : Pageable W) (w : task_world W).

(** [LoopUntil] run by the task never reaches the function literal: it
    leaves the channels, what was received and the script as they were,
    and only the world of the Pageable has moved, by the one fetch. *)
Lemma LoopUntil_in_task_world fuel pageable w :
  snd (LoopUntil fuel (pageable_in_task pageable) send_or_stop w)
  = snd (in_task (GetPage pageable 1 10) w).
Proof.
  unfold LoopUntil, bind, pageable_in_task, in_task; simpl.
  destruct (GetPage pageable 1 10 (remote w)) as [[[page err]| | |] s];
    try reflexivity.
  destruct err as [e|]; [reflexivity|].
  destruct page as [page|]; [|reflexivity].
  destruct page as [n sz t c]; destruct fuel; destruct c; reflexivity.
Qed.

Lemma LoopUntil_in_task_result fuel pageable w :
  fst (LoopUntil (S fuel) (pageable_in_task pageable) send_or_stop w)
  = match fst (GetPage pageable 1 10 (remote w)) with
    | Returns (_, Some e) => Returns (Some e)
    | Returns (None, None) => Panics nil_dereference
    | Returns (Some page, None) => Panics (switch_panic page)
    | Panics p => Panics p
    | Blocks => Blocks
    | OutOfFuel => OutOfFuel
    end.
Proof.
  rewrite LoopUntil_outcome. unfold pageable_in_task, in_task; simpl.
  destruct (GetPage pageable 1 10 (remote w)) as [[[page err]| | |] s];
    try reflexivity.
  destruct page as [page|], err as [e|]; reflexivity.
Qed.

(** The task delivers nothing: whatever the Pageable, the consumer and
    the bound, no element is ever received from [consumer]. *)
Lemma AsChan_delivers_nothing fuel pageable (c : consumer) (s : W) :
  received (snd (AsChan fuel pageable c s)) = [].
Proof.
  unfold AsChan, task.
  set (w0 := make_channels s (at_select c)).
  assert (Hc : forall w, received (snd (cancel w)) = received w).
  { intros w. unfold cancel, close_done. destruct (done_closed w); reflexivity. }
  assert (Hk : forall w, received (snd (close_consumer w)) = received w).
  { intros w. unfold close_consumer. destruct (consumer_closed w); reflexivity. }
  set (w1 := if cancel_first c then cancel w0 else (Returns (), w0)).
  assert (H1 : received (snd w1) = []).
  { subst w1. destruct (cancel_first c); [rewrite Hc|]; reflexivity. }
  destruct w1 as [r0 w1]; simpl in H1.
  pose proof (LoopUntil_in_task_world fuel pageable w1) as Hw.
  destruct (LoopUntil fuel (pageable_in_task pageable) send_or_stop w1) as [r w2].
  simpl in Hw. subst w2.
  assert (H2 : received (snd (in_task (GetPage pageable 1 10) w1)) = []).
  { unfold in_task. destruct (GetPage pageable 1 10 (remote w1)); exact H1. }
  set (w2 := snd (in_task (GetPage pageable 1 10) w1)) in *.
  assert (H3 : received (snd (close_consumer (snd (close_done w2)))) = []).
  { rewrite Hk. rewrite <- H2. apply Hc. }
  destruct (close_done w2) as [r2 w3]; simpl in H3.
  destruct (close_consumer w3) as [r3 w4]; simpl in H3.
  destruct r as [a|p| |]; try exact H2.
  - destruct (raised (Returns a) ++ raised r2 ++ raised r3) as [|p ps]; [|exact H3].
    pose proof (Hc w4) as H4.
    destruct (cancel_last c); [|exact H3].
    destruct (cancel w4) as [r4 w5]; simpl in *. congruence.
  - simpl. exact H3.
Qed.

(** A consumer that cancels before the task runs: when the fetch of
    the task returns or panics, the deferred [close(done)] of the task
    closes [done] a second time. *)
Lemma AsChan_cancel_first_closes_twice fuel pageable (c : consumer) (s : W) :
  cancel_first c = true ->
  fst (GetPage pageable 1 10 s) <> Blocks ->
  fst (GetPage pageable 1 10 s) <> OutOfFuel ->
  In close_of_closed_channel (fst (AsChan (S fuel) pageable c s)).
Proof.
  intros Hfirst Hb Hf. unfold AsChan, task. rewrite Hfirst. simpl.
  match goal with
  | |- context [LoopUntil (S fuel) _ _ ?w] => set (w1 := w)
  end.
  pose proof (LoopUntil_in_task_result fuel pageable w1) as Hr.
  pose proof (LoopUntil_in_task_world (S fuel) pageable w1) as Hw.
  destruct (LoopUntil (S fuel) (pageable_in_task pageable) send_or_stop w1) as [r w2].
  simpl in Hr, Hw. subst w2.
  unfold in_task. change (remote w1) with s in *.
  destruct (GetPage pageable 1 10 s) as [g s']; simpl in *.
  destruct g as [[page err]|p| |]; try congruence.
  - destruct page as [page|], err as [e|]; subst r; simpl; auto.
  - subst r. simpl. auto.
Qed.

(** A consumer that cancels once the task has ended: when the fetch of
    the task failed with an error, the task has closed [done], and the
    CancelFunc closes it a second time. *)
Lemma AsChan_cancel_last_closes_twice fuel pageable (c : consumer) (s s' : W)
    page e :
  cancel_first c = false ->
  cancel_last c = true ->
  GetPage pageable 1 10 s = (Returns (page, Some e), s') ->
  fst (AsChan fuel pageable c s) = [close_of_closed_channel].
Proof.
  intros Hfirst Hlast Hget. unfold AsChan, task. rewrite Hfirst, Hlast.
  unfold LoopUntil, bind, pageable_in_task, in_task. simpl.
  rewrite Hget. reflexivity.
Qed.

End AsChan_facts.

Section AsChan_claims.
Import pagination doubles.

(** C3, the code at a failing input.  Pages of sizes 3, 3 and 2 and a
    consumer that takes [n] elements and never cancels: where the claim
    has the task deliver the 8 elements, the task fetches page 1 by
    [GetPage(ctx, 1, 10)], never calls [NextPage], panics in
    [LoopUntil] before it offers an element, and closes both channels:
    nothing is received. *)
Theorem AsChan_three_pages_delivers_nothing (fuel n : nat) :
  AsChan (S fuel) (observed_pageable three_pages)
         {| cancel_first := false; at_select := repeat receives n;
            cancel_last := false |} (tt, [])
  = ([ValueError "reflect.Value.Len" Struct],
     {| remote := (tt, [call_GetPage 1 10]);
        consumer_closed := true; done_closed := true;
        received := []; script := repeat receives n |}).
Proof. reflexivity. Qed.

(** C5, the code at failing inputs.  The consumer calls the CancelFunc
    exactly once.  Called before the task runs, the deferred
    [close(done)] of the task closes the closed channel, on a Pageable
    whose fetch fails as on one that has pages; called after a task
    that ended on a failed fetch, the [close(done)] of the CancelFunc
    does. *)
Theorem AsChan_one_cancel_closes_closed_channel (fuel : nat) (e : error) :
  let early := {| cancel_first := true; at_select := []; cancel_last := false |} in
  let late := {| cancel_first := false; at_select := []; cancel_last := true |} in
  cancel_calls early = 1%nat
  /\ cancel_calls late = 1%nat
  /\ fst (AsChan (S fuel) (failing e) early tt) = [close_of_closed_channel]
  /\ fst (AsChan (S fuel) (failing e) late tt) = [close_of_closed_channel]
  /\ fst (AsChan (S fuel) three_pages early tt)
     = [ValueError "reflect.Value.Len" Struct; close_of_closed_channel].
Proof. repeat split. Qed.

End AsChan_claims.

(** ** [NextPage] of the paged listings *)
Section NextPage_claims.
Import doubles.

(** [NextPage] asks for the number of the page it was given. *)
Lemma NextPage_asks_same_number {W body Info : Type} (Info_value : Info -> value)
    path url_Parse NewRequestWithContext Decode
    (a : @paged.api W body) (page : pagination.Page) :
  paged.NextPage Info_value path url_Parse NewRequestWithContext Decode a page
  = paged.GetPage Info_value path url_Parse NewRequestWithContext Decode a
                  (pagination.Num page) (pagination.Size page).
Proof. reflexivity. Qed.

(** C4, the code at a failing input.  Against a server that answers
    the page it is asked for, out of 3, [NextPage] on page 1 of size 10
    gives page 1 again, not the page [GetPage(ctx, 1 + 1, 10)] gives,
    and three calls in a row, each on the page before, visit the
    numbers 1, 1, 1. *)
Theorem NextPage_gives_same_page :
  let page1 := {| pagination.Num := 1; pagination.Size := 10;
                  pagination.Total := 3; pagination.Content := go_slice [] |} in
  let page2 := {| pagination.Num := 2; pagination.Size := 10;
                  pagination.Total := 3; pagination.Content := go_slice [] |} in
  echo_GetPage 3 1 10 tt = (Returns (Some page1, None), tt)
  /\ echo_NextPage 3 page1 tt = (Returns (Some page1, None), tt)
  /\ echo_GetPage 3 (pagination.Num page1 + 1) (pagination.Size page1) tt
     = (Returns (Some page2, None), tt)
  /\ walk 3 (echo_NextPage 3) page1 tt = [1; 1; 1].
Proof. vm_compute. repeat split. Qed.

End NextPage_claims.

(** ** [client.New] *)
Section New_facts.
Context {E : Type}.
Implicit Types (options : list (@client.Option E)) (o : client.optionSet) (env : E).

(** A loop over the options that ends with another token than it
    started with ran an option that set this token. *)
Lemma range_options_token_set options : forall o0 env o env',
  client.range_options options o0 env = (Returns (o, None), env') ->
  client.token o <> client.token o0 ->
  token_set_by options o0 env (client.token o).
Proof.
  induction options as [|option rest IH]; intros o0 env o env' Hrun Hne.
  - simpl in Hrun. unfold ret in Hrun. inversion Hrun; subst. contradiction.
  - simpl in Hrun. unfold bind in Hrun.
    destruct (option o0 env) as [[[o1 err]|p| |] env1] eqn:Hopt; try discriminate.
    destruct err as [e|]; [discriminate|].
    destruct (string_dec (client.token o1) (client.token o)) as [Heq|Hdiff].
    + exists [], option, rest, o0, env, o1, env1.
      repeat split; auto.
    + destruct (IH o1 env1 o env' Hrun (not_eq_sym Hdiff))
        as (before & opt & after & o_in & env_in & o_out & env_out
            & Hsplit & Hbefore & Hset & Hin & Hout).
      exists (option :: before), opt, after, o_in, env_in, o_out, env_out.
      repeat split; auto.
      * rewrite Hsplit. reflexivity.
      * simpl. unfold bind. rewrite Hopt. exact Hbefore.
Qed.

Lemma New_of_range_options options env :
  client.New options env
  = match client.range_options options no_options env with
    | (Returns (o, Some e), env') => (Returns (None, Some e), env')
    | (Returns (o, None), env') =>
        if String.eqb (client.token o) "" then
          (Returns (None, Some (fmt_Errorf_w "%w: token not set"
                                             client.ErrConfiguration [])), env')
        else
          (Returns (Some {| client.tc_token := client.token o;
                            client.tc_httpClient :=
                              match client.httpClient o with
                              | None => Some client.DefaultClient
                              | Some c => Some c
                              end;
                            client.tc_logWriter := client.logWriter o |}, None),
           env')
    | (Panics p, env') => (Panics p, env')
    | (Blocks, env') => (Blocks, env')
    | (OutOfFuel, env') => (OutOfFuel, env')
    end.
Proof.
  unfold client.New, bind. fold no_options.
  destruct (client.range_options options no_options env) as [[[o err]|p| |] env'];
    try reflexivity.
  destruct err as [e|]; [reflexivity|].
  destruct o as [h t l]; destruct h; simpl; destruct (String.eqb t ""); reflexivity.
Qed.

End New_facts.

(** C10, as the code has it.  Let the loop of [New] over the options
    return.  If an option returned an error, [New] returns that error,
    as it is, and no client.  Otherwise, if the token is empty, [New]
    returns no client and an error that wraps [ErrConfiguration]; and if
    it is not, some option set it and [New] returns a client that holds
    it, and no error.  So a client that [New] returns never has an empty
    token. *)
Theorem New_client_needs_token {E : Type} (options : list (@client.Option E))
    (env env1 : E) (o : client.optionSet) (err : option error) :
  client.range_options options no_options env = (Returns (o, err), env1) ->
  match err with
  | Some e => client.New options env = (Returns (None, Some e), env1)
  | None =>
      (client.token o = ""
       /\ exists e, client.New options env = (Returns (None, Some e), env1)
                    /\ errors_Is e client.ErrConfiguration = true)
      \/ (client.token o <> ""
          /\ token_set_by options no_options env (client.token o)
          /\ exists c, client.New options env = (Returns (Some c, None), env1)
                       /\ client.tc_token c = client.token o)
  end
  /\ (forall c err' env', client.New options env = (Returns (Some c, err'), env') ->
        client.tc_token c <> "" /\ err' = None).
Proof.
  intros Hrun. pose proof (New_of_range_options options env) as HNew.
  rewrite Hrun in HNew. split.
  - destruct err as [e|]; [exact HNew|].
    destruct (String.eqb_spec (client.token o) "") as [Hempty|Hfull].
    + left. split; [exact Hempty|].
      eexists; split; [exact HNew|]. reflexivity.
    + right. split; [exact Hfull|]. split.
      * apply (range_options_token_set options no_options env o env1 Hrun).
        exact Hfull.
      * eexists; split; [exact HNew|]. reflexivity.
  - intros c err' env' Hc. rewrite HNew in Hc.
    destruct err as [e|]; [discriminate|].
    destruct (String.eqb_spec (client.token o) "") as [Hempty|Hfull];
      [discriminate|].
    inversion Hc; subst. split; [exact Hfull | reflexivity].
Qed.

Lemma New_client_needs_token_witness :
  let given := {| client.httpClient := None; client.token := "secret";
                  client.logWriter := None |} in
  client.range_options [client.TokenFromString (E := unit) "secret"] no_options tt
  = (Returns (given, None), tt)
  /\ ((client.token given = ""
       /\ exists e, client.New [client.TokenFromString "secret"] tt
                    = (Returns (None, Some e), tt)
                    /\ errors_Is e client.ErrConfiguration = true)
      \/ (client.token given <> ""
          /\ token_set_by [client.TokenFromString "secret"] no_options tt
                          (client.token given)
          /\ exists c, client.New [client.TokenFromString "secret"] tt
                       = (Returns (Some c, None), tt)
                       /\ client.tc_token c = client.token given))
  /\ (forall c err' env',
        client.New [client.TokenFromString (E := unit) "secret"] tt
        = (Returns (Some c, err'), env') ->
        client.tc_token c <> "" /\ err' = None).
Proof.
  intros given. split; [reflexivity|].
  exact (New_client_needs_token [client.TokenFromString "secret"] tt tt given None
                                eq_refl).
Defined.

(** C10 as stated fails: the one option [TokenFromEnv(false)], in an
    environment without [ANEXIA_TOKEN].  No option sets a token, the
    token is empty, and the error that [New] returns wraps
    [ErrEnvMissing], not [ErrConfiguration]. *)
Lemma New_missing_env_not_ErrConfiguration :
  let options := [client.TokenFromEnv doubles.LookupEnv doubles.Unsetenv false] in
  let e := fmt_Errorf_w "%w: %s" client.ErrEnvMissing [client.TokenEnvName] in
  client.range_options options no_options ∅ = (Returns (no_options, Some e), ∅)
  /\ client.token no_options = ""
  /\ client.New options ∅ = (Returns (None, Some e), ∅)
  /\ errors_Is e client.ErrConfiguration = false
  /\ errors_Is e client.ErrEnvMissing = true.
Proof. repeat split. Qed.

(** * Further properties of the code *)

(** ** [LoopUntil] and [AsChan] on every Pageable *)

(** Whenever [LoopUntil] returns, what it returns is the error that its
    [GetPage(ctx, 1, 10)] returned: it never returns [nil], and never an
    error of its own making. *)
Theorem LoopUntil_returns_only_fetch_error {W : Type} (fuel : nat)
    (pageable : pagination.Pageable W) (untilFunc : pagination.UntilTrueFunc W)
    (w w' : W) (err : option error) :
  pagination.LoopUntil fuel pageable untilFunc w = (Returns err, w') ->
  exists page e,
    err = Some e
    /\ pagination.GetPage pageable 1 10 w = (Returns (page, Some e), w').
Proof.
  unfold pagination.LoopUntil, bind.
  destruct (pagination.GetPage pageable 1 10 w) as [[[page gerr]| | |] w1];
    try discriminate.
  destruct gerr as [e|].
  - unfold ret. intros [= <- <-]. exists page, e. split; reflexivity.
  - destruct page as [page|]; [|discriminate].
    destruct page as [n s t c]; destruct fuel; destruct c; discriminate.
Qed.

Lemma LoopUntil_returns_only_fetch_error_witness :
  pagination.LoopUntil 3 (doubles.failing (errors_New "connection refused"))
                       (doubles.equals 1) tt
  = (Returns (Some (errors_New "connection refused")), tt)
  /\ exists page e,
       Some (errors_New "connection refused") = Some e
       /\ pagination.GetPage (doubles.failing (errors_New "connection refused")) 1 10 tt
          = (Returns (page, Some e), tt).
Proof.
  split; [reflexivity|].
  exact (LoopUntil_returns_only_fetch_error 3
           (doubles.failing (errors_New "connection refused")) (doubles.equals 1)
           tt tt (Some (errors_New "connection refused")) eq_refl).
Defined.

(** Whatever the Pageable, the predicate, the consumer and the bound, a
    run of [AsChan] calls the Pageable exactly once, by
    [GetPage(ctx, 1, 10)], never calls [NextPage], and delivers no
    element to the consumer. *)
Theorem AsChan_one_fetch_no_delivery {W : Type} (fuel : nat)
    (pageable : pagination.Pageable W) (c : pagination.consumer) (s : W) :
  let w := snd (pagination.AsChan fuel (pagination.observed_pageable pageable) c (s, [])) in
  snd (pagination.remote w) = [pagination.call_GetPage 1 10]
  /\ pagination.received w = [].
Proof.
  intros w. split; [|apply AsChan_delivers_nothing].
  subst w. unfold pagination.AsChan, pagination.task.
  set (w0 := pagination.make_channels (s, []) (pagination.at_select c)).
  set (r1 := if pagination.cancel_first c then pagination.cancel w0
             else (Returns (), w0)).
  assert (H1 : pagination.remote (snd r1) = (s, [])).
  { subst r1. destruct (pagination.cancel_first c); reflexivity. }
  destruct r1 as [r0 w1]; simpl in H1.
  pose proof (LoopUntil_in_task_world fuel (pagination.observed_pageable pageable) w1)
    as Hw.
  destruct (pagination.LoopUntil fuel
              (pagination.pageable_in_task (pagination.observed_pageable pageable))
              pagination.send_or_stop w1) as [r w2].
  simpl in Hw. subst w2.
  assert (H2 : snd (pagination.remote
                      (snd (pagination.in_task
                              (pagination.GetPage (pagination.observed_pageable pageable)
                                                  1 10) w1)))
               = [pagination.call_GetPage 1 10]).
  { unfold pagination.in_task. rewrite H1. simpl. unfold pagination.logged. simpl.
    destruct (pagination.GetPage pageable 1 10 s); reflexivity. }
  set (w2 := snd (pagination.in_task _ w1)) in *.
  assert (Hd : forall v : pagination.task_world (W * list pagination.call),
             pagination.remote (snd (pagination.close_done v)) = pagination.remote v).
  { intros v. unfold pagination.close_done.
    destruct (pagination.done_closed v); reflexivity. }
  assert (Hk : forall v : pagination.task_world (W * list pagination.call),
             pagination.remote (snd (pagination.close_consumer v)) = pagination.remote v).
  { intros v. unfold pagination.close_consumer.
    destruct (pagination.consumer_closed v); reflexivity. }
  assert (H3 : snd (pagination.remote
                      (snd (pagination.close_consumer (snd (pagination.close_done w2)))))
               = [pagination.call_GetPage 1 10]).
  { rewrite Hk, Hd. exact H2. }
  destruct (pagination.close_done w2) as [r2 w3]; simpl in H3.
  destruct (pagination.close_consumer w3) as [r3 w4]; simpl in H3.
  destruct r as [a|p| |]; try exact H2.
  - destruct (pagination.raised (Returns a) ++ pagination.raised r2
              ++ pagination.raised r3) as [|p ps]; [|exact H3].
    pose proof (Hd w4) as H4. unfold pagination.cancel.
    destruct (pagination.cancel_last c); [|exact H3].
    destruct (pagination.close_done w4) as [r4 w5]; simpl in *. congruence.
  - simpl. exact H3.
Qed.

(** A consumer that never calls the CancelFunc, on a Pageable whose
    fetch returns or panics: the task ends with both channels closed,
    and the only panic raised, if any, is the one of [LoopUntil]; the
    deferred closes raise none. *)
Theorem AsChan_uncancelled_closes_once {W : Type} (fuel : nat)
    (pageable : pagination.Pageable W) (c : pagination.consumer) (s : W) :
  pagination.cancel_first c = false ->
  pagination.cancel_last c = false ->
  fst (pagination.GetPage pageable 1 10 s) <> Blocks ->
  fst (pagination.GetPage pageable 1 10 s) <> OutOfFuel ->
  let run := pagination.AsChan (S fuel) pageable c s in
  pagination.consumer_closed (snd run) = true
  /\ pagination.done_closed (snd run) = true
  /\ fst run
     = match fst (pagination.GetPage pageable 1 10 s) with
       | Returns (_, Some _) => []
       | Returns (None, None) => [nil_dereference]
       | Returns (Some page, None) => [switch_panic page]
       | Panics p => [p]
       | _ => []
       end.
Proof.
  intros Hfirst Hlast Hb Hf run. subst run.
  unfold pagination.AsChan, pagination.task. rewrite Hfirst, Hlast.
  match goal with
  | |- context [pagination.LoopUntil (S fuel) _ _ ?w] => set (w1 := w)
  end.
  pose proof (LoopUntil_in_task_result fuel pageable w1) as Hr.
  pose proof (LoopUntil_in_task_world (S fuel) pageable w1) as Hw.
  destruct (pagination.LoopUntil (S fuel) (pagination.pageable_in_task pageable)
              pagination.send_or_stop w1) as [r w2].
  simpl in Hr, Hw. subst w2.
  unfold pagination.in_task. change (pagination.remote w1) with s in *.
  destruct (pagination.GetPage pageable 1 10 s) as [g s']; simpl in *.
  destruct g as [[page err]|p| |]; try congruence.
  - destruct page as [page|], err as [e|]; subst r; simpl; auto.
  - subst r. simpl. auto.
Qed.

Lemma AsChan_uncancelled_closes_once_witness :
  let c := {| pagination.cancel_first := false; pagination.at_select := [];
              pagination.cancel_last := false |} in
  let run := pagination.AsChan 1 doubles.two_pages c tt in
  pagination.consumer_closed (snd run) = true
  /\ pagination.done_closed (snd run) = true
  /\ fst run = [ValueError "reflect.Value.Len" Struct].
Proof.
  intros c.
  apply (AsChan_uncancelled_closes_once 0 doubles.two_pages c tt);
    [reflexivity | reflexivity | discriminate | discriminate].
Defined.

(** While the fetch of the task does not return, nothing closes
    [consumer], whether the consumer calls the CancelFunc or not: the
    task sees a cancellation only at a [select]. *)
Theorem AsChan_blocked_fetch_never_closes {W : Type} (fuel : nat)
    (pageable : pagination.Pageable W) (c : pagination.consumer) (s : W) :
  fst (pagination.GetPage pageable 1 10 s) = Blocks ->
  pagination.consumer_closed (snd (pagination.AsChan fuel pageable c s)) = false.
Proof.
  intros Hblocks. unfold pagination.AsChan, pagination.task.
  set (w0 := pagination.make_channels s (pagination.at_select c)).
  set (r1 := if pagination.cancel_first c then pagination.cancel w0
             else (Returns (), w0)).
  assert (H1 : pagination.remote (snd r1) = s
               /\ pagination.consumer_closed (snd r1) = false).
  { subst r1. destruct (pagination.cancel_first c); split; reflexivity. }
  destruct r1 as [r0 w1]; simpl in H1. destruct H1 as [Hs Hopen].
  unfold pagination.LoopUntil, bind, pagination.pageable_in_task, pagination.in_task.
  simpl. rewrite Hs.
  destruct (pagination.GetPage pageable 1 10 s) as [g s']; simpl in Hblocks.
  subst g. simpl. exact Hopen.
Qed.

Lemma AsChan_blocked_fetch_never_closes_witness :
  fst (pagination.GetPage hanging 1 10 tt) = Blocks
  /\ pagination.consumer_closed
       (snd (pagination.AsChan 5 hanging
               {| pagination.cancel_first := true; pagination.at_select := [];
                  pagination.cancel_last := false |} tt)) = false.
Proof.
  split; [reflexivity|].
  apply (AsChan_blocked_fetch_never_closes 5 hanging). reflexivity.
Defined.

(** ** [strconv] *)

(** What [strconv.Itoa] spells, [strconv.Atoi] reads back. *)
Lemma strconv_Atoi_Itoa (i : Z) : strconv_Atoi (strconv_Itoa i) = Some i.
Proof.
  unfold strconv_Atoi, strconv_Itoa.
  rewrite NilZero.isi.
  - simpl. f_equal. apply DecimalZ.of_to.
  - destruct i; simpl; try discriminate.
    intros [= H]. revert H. apply DecimalPos.Unsigned.to_uint_nonnil.
  - destruct i; simpl; try discriminate.
    intros [= H]. revert H. apply DecimalPos.Unsigned.to_uint_nonnil.
Qed.

(** ** [GetPage] and [NextPage] of the paged listings *)
Section paged_facts.
Context {W body Info : Type}.
Variable Info_value : Info -> value.
Variable path : string.
Variable url_Parse : string -> http.URL + error.
Variable NewRequestWithContext : string -> http.URL -> http.Request + error.
Variable Decode : body -> @paged.BackendPage Info + error.

Local Abbreviation GetPage :=
  (paged.GetPage Info_value path url_Parse NewRequestWithContext Decode).
Local Abbreviation NextPage :=
  (paged.NextPage Info_value path url_Parse NewRequestWithContext Decode).
Local Abbreviation as_Pageable :=
  (paged.as_Pageable Info_value path url_Parse NewRequestWithContext Decode).

Ltac GetPage_cases H :=
  unfold paged.GetPage, bind, ret, do_panic in H;
  repeat case_match; simplify_eq.

(** The two shapes of what [GetPage] returns. *)
Lemma GetPage_decoded_or_error (a : @paged.api W body) page limit w p e w' :
  GetPage a page limit w = (Returns (p, e), w') ->
  (exists f, p = Some (paged.as_Page Info_value f) /\ e = None)
  \/ (p = None /\ exists err, e = Some err).
Proof. intros H. GetPage_cases H; eauto. Qed.

(** Whenever [GetPage] returns, it returns a page exactly when it returns
    no error: never both, never neither. *)
Theorem GetPage_page_iff_no_error (a : @paged.api W body) page limit w p e w' :
  GetPage a page limit w = (Returns (p, e), w') ->
  (p <> None <-> e = None).
Proof.
  intros H.
  destruct (GetPage_decoded_or_error a page limit w p e w' H)
    as [(f & -> & ->) | (-> & err & ->)]; split; congruence.
Qed.


(** An error that [GetPage] returns is either the one it makes from the
    status of a 5xx answer, or wraps its cause: the error of
    [url.Parse], of [http.NewRequestWithContext], of the client's [Do] or
    of the JSON decoder, which [errors.Is] finds in it. *)
Theorem GetPage_error_keeps_cause (a : @paged.api W body) page limit w p e w' :
  GetPage a page limit w = (Returns (p, Some e), w') ->
  (exists response : http.Response body,
     500 <= http.StatusCode response < 600
     /\ e = fmt_Errorf "could not get load balancer frontends %s" [http.Status response]
     /\ errors_Unwrap e = None)
  \/ exists cause,
       errors_Unwrap e = Some cause
       /\ errors_Is e cause = true
       /\ (url_Parse (client.BaseURL (paged.client a)) = inr cause
           \/ (exists endpoint,
                 NewRequestWithContext http.MethodGet endpoint = inr cause)
           \/ (exists req response,
                 client.Do (paged.client a) req w = (Returns (response, Some cause), w'))
           \/ (exists response : http.Response body,
                 Decode (http.Body response) = inr cause)).
Proof.
  intros H. GetPage_cases H.
  all: try solve [right; eexists; split; [reflexivity|];
                  split; [apply errors_Is_wrapped, errors_Is_refl | eauto 8]].
  left. eexists. split; [|split; reflexivity].
  match goal with
  | Hs : _ && _ = true |- _ => apply andb_true_iff in Hs; destruct Hs as [Hlo Hhi]
  end.
  apply Z.leb_le in Hlo. apply Z.ltb_lt in Hhi. split; eassumption.
Qed.


(** [LoopUntil] on a listing never gets past its first page: whenever the
    [GetPage(ctx, 1, 10)] of the listing gives a page, [LoopUntil] panics
    in the condition of its loop, whatever the predicate. *)
Theorem LoopUntil_on_listing_panics (a : @paged.api W body) fuel
    (untilFunc : pagination.UntilTrueFunc W) (w w' : W) p e :
  GetPage a 1 10 w = (Returns (Some p, e), w') ->
  pagination.LoopUntil (S fuel) (as_Pageable a) untilFunc w
  = (Panics (ValueError "reflect.Value.Len" Struct), w').
Proof.
  intros Hget.
  destruct (GetPage_decoded_or_error a 1 10 w (Some p) e w' Hget)
    as [(f & [= ->] & ->) | ([=] & _)].
  apply LoopUntil_sequence_panics with (page := paged.as_Page Info_value f).
  - exact Hget.
  - right. reflexivity.
Qed.

(** Against a server that answers the page it is asked for, [NextPage]
    never advances: however often it is called, each time on the page the
    call before gave, every page it gives has the number of the first. *)
Theorem NextPage_never_advances (a : @paged.api W body) :
  answers_as_asked (GetPage a) ->
  forall (calls : nat) (page : pagination.Page) (w : W),
    Forall (fun number => number = pagination.Num page)
           (walk calls (NextPage a) page w).
Proof.
  intros Hecho calls. induction calls as [|calls IH]; intros page w; simpl.
  - constructor.
  - unfold paged.NextPage at 1.
    destruct (GetPage a (pagination.Num page) (pagination.Size page) w)
      as [[[[page'|] [err|]]|q| |] w1] eqn:Hget; try constructor.
    + apply (Hecho _ _ _ _ _ _ Hget).
    + destruct (Hecho _ _ _ _ _ _ Hget) as [Hnum Hsize].
      rewrite <- Hnum. apply IH.
Qed.

(** A 5xx answer never gives a page, whatever its body holds. *)
Theorem GetPage_5xx_gives_no_page (base : string) (response : http.Response body)
    page limit :
  500 <= http.StatusCode response < 600 ->
  exists e,
    paged.GetPage (W := unit) Info_value path url_Parse NewRequestWithContext Decode
                  {| paged.client := answering base response |} page limit tt
    = (Returns (None, Some e), tt).
Proof.
  intros [Hlo Hhi]. unfold paged.GetPage, bind, ret, answering. simpl.
  destruct (url_Parse base) as [u|cause]; [|eauto].
  destruct (NewRequestWithContext http.MethodGet _) as [req|cause]; [|eauto].
  apply Z.leb_le in Hlo. apply Z.ltb_lt in Hhi. rewrite Hlo, Hhi. simpl. eauto.
Qed.

(** Only the 5xx statuses are looked at: two answers with the same body
    and any two statuses outside 500..599 (a 200 and a 404, say) give
    the same result. *)
Theorem GetPage_other_statuses_alike (base : string)
    (response1 response2 : http.Response body) page limit :
  http.Body response1 = http.Body response2 ->
  ~ 500 <= http.StatusCode response1 < 600 ->
  ~ 500 <= http.StatusCode response2 < 600 ->
  paged.GetPage (W := unit) Info_value path url_Parse NewRequestWithContext Decode
                {| paged.client := answering base response1 |} page limit tt
  = paged.GetPage Info_value path url_Parse NewRequestWithContext Decode
                  {| paged.client := answering base response2 |} page limit tt.
Proof.
  intros Hbody H1 H2. unfold paged.GetPage, bind, ret, answering. simpl.
  destruct (url_Parse base) as [u|cause]; [|reflexivity].
  destruct (NewRequestWithContext http.MethodGet _) as [req|cause]; [|reflexivity].
  assert (forall s, ~ 500 <= s < 600 -> (500 <=? s) && (s <? 600) = false) as Hout.
  { intros s Hs. apply andb_false_iff.
    destruct (Z.leb_spec 500 s); [right; apply Z.ltb_ge; lia | left; reflexivity]. }
  rewrite (Hout _ H1), (Hout _ H2), Hbody. reflexivity.
Qed.

End paged_facts.

Section paged_witnesses.
Import doubles.

Local Abbreviation element := (fun n : nat => go_int (Z.of_nat n)).
Local Abbreviation listing := "/api/LBaaS/v1/backend.json".

Lemma echo_answers_as_asked (total : Z) : answers_as_asked (echo_GetPage total).
Proof.
  intros number limit [] page err [] H.
  unfold echo_GetPage, paged.GetPage, bind, ret, echo_api, echo_client, echo_Do,
    asked, parse_any, new_request in H.
  cbn [paged.client client.BaseURL client.Do http.RequestURL http.RawQuery
       http.Host http.Path] in H.
  rewrite lookup_insert_ne in H by discriminate.
  rewrite !lookup_insert_eq in H.
  rewrite !strconv_Atoi_Itoa in H.
  cbn [http.StatusCode Z.leb Z.ltb Z.compare Pos.compare Pos.compare_cont andb] in H.
  injection H as <- _. split; reflexivity.
Qed.

Lemma GetPage_page_iff_no_error_witness :
  echo_GetPage 3 2 10 tt
  = (Returns (Some {| pagination.Num := 2; pagination.Size := 10;
                      pagination.Total := 3; pagination.Content := go_slice [] |},
              None), tt)
  /\ (Some {| pagination.Num := 2; pagination.Size := 10;
              pagination.Total := 3; pagination.Content := go_slice [] |} <> None
      <-> @None error = None).
Proof.
  split; [vm_compute; reflexivity|].
  apply (GetPage_page_iff_no_error element listing parse_any new_request inl
           (echo_api 3) 2 10 tt _ _ tt).
  vm_compute; reflexivity.
Defined.

Lemma GetPage_error_keeps_cause_witness :
  let a := {| paged.client :=
                unreachable (body := @paged.BackendPage nat)
                            "https://engine.anexia-it.com"
                            (errors_New "connection refused") |} in
  let e := fmt_Errorf_w "error when executing request: %w"
                        (errors_New "connection refused") [] in
  paged.GetPage element listing parse_any new_request inl a 1 10 tt
  = (Returns (None, Some e), tt)
  /\ errors_Is e (errors_New "connection refused") = true.
Proof.
  intros a e. split; [vm_compute; reflexivity|].
  destruct (GetPage_error_keeps_cause element listing parse_any new_request inl
              a 1 10 tt None e tt)
    as [(response & _ & Heq & _) | (cause & Hunwrap & His & _)].
  - vm_compute; reflexivity.
  - discriminate Heq.
  - injection Hunwrap as <-. exact His.
Defined.

Lemma LoopUntil_on_listing_panics_witness :
  pagination.LoopUntil 1
    (paged.as_Pageable element listing parse_any new_request inl (echo_api 3))
    (equals 1) tt
  = (Panics (ValueError "reflect.Value.Len" Struct), tt).
Proof.
  apply (LoopUntil_on_listing_panics element listing parse_any new_request inl
           (echo_api 3) 0 (equals 1) tt tt
           {| pagination.Num := 1; pagination.Size := 10;
              pagination.Total := 3; pagination.Content := go_slice [] |} None).
  vm_compute; reflexivity.
Defined.

Lemma NextPage_never_advances_witness :
  Forall (fun number => number = 1)
         (walk 4 (echo_NextPage 3)
               {| pagination.Num := 1; pagination.Size := 10;
                  pagination.Total := 3; pagination.Content := go_slice [] |} tt).
Proof.
  apply (NextPage_never_advances element listing parse_any new_request inl
           (echo_api 3) (echo_answers_as_asked 3) 4
           {| pagination.Num := 1; pagination.Size := 10;
              pagination.Total := 3; pagination.Content := go_slice [] |} tt).
Defined.

Lemma GetPage_5xx_gives_no_page_witness :
  let response := {| http.StatusCode := 503; http.Status := "503 Service Unavailable";
                     http.Body := {| paged.Page := 1; paged.TotalItems := 0;
                                     paged.TotalPages := 1; paged.Limit := 10;
                                     paged.Data := @nil nat |} |} in
  exists e,
    paged.GetPage element listing parse_any new_request inl
                  {| paged.client := answering "https://engine.anexia-it.com" response |}
                  1 10 tt
    = (Returns (None, Some e), tt).
Proof.
  intros response.
  apply (GetPage_5xx_gives_no_page element listing parse_any new_request inl
           "https://engine.anexia-it.com" response 1 10).
  simpl. lia.
Defined.

Lemma GetPage_other_statuses_alike_witness :
  let payload := {| paged.Page := 1; paged.TotalItems := 0; paged.TotalPages := 1;
                    paged.Limit := 10; paged.Data := @nil nat |} in
  let ok := {| http.StatusCode := 200; http.Status := "200 OK";
               http.Body := payload |} in
  let missing := {| http.StatusCode := 404; http.Status := "404 Not Found";
                    http.Body := payload |} in
  paged.GetPage element listing parse_any new_request inl
                {| paged.client := answering "https://engine.anexia-it.com" ok |} 1 10 tt
  = paged.GetPage element listing parse_any new_request inl
                  {| paged.client := answering "https://engine.anexia-it.com" missing |}
                  1 10 tt.
Proof.
  intros payload ok missing.
  apply (GetPage_other_statuses_alike element listing parse_any new_request inl
           "https://engine.anexia-it.com" ok missing 1 10);
    [reflexivity | simpl; lia | simpl; lia].
Defined.

End paged_witnesses.

(** ** The options and [New] *)
Section New_more_facts.
Context {E : Type}.
Implicit Types (options : list (@client.Option E)) (o : client.optionSet) (env : E).

(** The loop over [before ++ after] is the loop over [before], and then,
    if that ended without an error, the loop over [after]. *)
Lemma range_options_app before after o env :
  client.range_options (before ++ after) o env
  = match client.range_options before o env with
    | (Returns (o', None), env') => client.range_options after o' env'
    | other => other
    end.
Proof.
  revert o env. induction before as [|option before IH]; intros o env; simpl.
  - reflexivity.
  - unfold bind. destruct (option o env) as [[[o1 err]|p| |] env1]; try reflexivity.
    destruct err as [e|]; [reflexivity|]. apply IH.
Qed.

(** Options that keep the token leave the token of the loop as it was. *)
Lemma range_options_keeps_token options :
  Forall keeps_token options ->
  forall o env o' err env',
    client.range_options options o env = (Returns (o', err), env') ->
    client.token o' = client.token o.
Proof.
  induction 1 as [|option options Hkeep _ IH]; intros o env o' err env' Hrun.
  - simpl in Hrun. unfold ret in Hrun. congruence.
  - simpl in Hrun. unfold bind in Hrun.
    destruct (option o env) as [[[o1 err1]|p| |] env1] eqn:Hopt; try discriminate.
    pose proof (Hkeep _ _ _ _ _ Hopt) as H1.
    destruct err1 as [e|].
    + unfold ret in Hrun. congruence.
    + rewrite <- H1. eapply IH; eassumption.
Qed.

End New_more_facts.

(** A client that [New] returns always has an HTTP client: the one an
    option gave, or [http.DefaultClient] when the options left none (none
    was given, or the last given was [nil]). *)
Theorem New_client_has_http_client {E : Type} (options : list (@client.Option E))
    (env env' : E) (c : client.tokenClient) (err : option error) :
  client.New options env = (Returns (Some c, err), env') ->
  client.tc_httpClient c <> None
  /\ forall o,
       client.range_options options no_options env = (Returns (o, None), env') ->
       client.tc_logWriter c = client.logWriter o
       /\ client.tc_httpClient c
          = match client.httpClient o with
            | Some h => Some h
            | None => Some client.DefaultClient
            end.
Proof.
  rewrite New_of_range_options.
  destruct (client.range_options options no_options env) as [[[o1 e1]|p| |] env1];
    try discriminate.
  destruct e1 as [e|]; [discriminate|].
  destruct (String.eqb (client.token o1) ""); [discriminate|].
  intros [= <- <- <-]. simpl. split.
  - destruct (client.httpClient o1); discriminate.
  - intros o [= <-]. split; reflexivity.
Qed.

Lemma New_client_has_http_client_witness :
  let options := [client.TokenFromString (E := unit) "secret"; client.HTTPClient None] in
  exists c,
    client.New options tt = (Returns (Some c, None), tt)
    /\ client.tc_httpClient c <> None.
Proof.
  intros options.
  exists {| client.tc_token := "secret";
            client.tc_httpClient := Some client.DefaultClient;
            client.tc_logWriter := None |}.
  split; [reflexivity|].
  apply (New_client_has_http_client options tt tt _ None eq_refl).
Defined.

(** [New] stops at the first option that returns an error: it returns
    that error and no client, the options after it are not run, and the
    environment is as that option left it. *)
Theorem New_stops_at_first_error {E : Type} (before after : list (@client.Option E))
    (env env1 : E) (o : client.optionSet) (e : error) :
  client.range_options before no_options env = (Returns (o, Some e), env1) ->
  client.New (before ++ after) env = (Returns (None, Some e), env1).
Proof.
  intros Hrun. rewrite New_of_range_options, range_options_app, Hrun. reflexivity.
Qed.

Lemma New_stops_at_first_error_witness :
  let failing_option := client.TokenFromEnv doubles.LookupEnv doubles.Unsetenv true in
  let e := fmt_Errorf_w "%w: %s" client.ErrEnvMissing [client.TokenEnvName] in
  client.range_options [failing_option] no_options ∅ = (Returns (no_options, Some e), ∅)
  /\ client.New ([failing_option] ++ [client.TokenFromString "secret"]) ∅
     = (Returns (None, Some e), ∅).
Proof.
  intros failing_option e. split; [reflexivity|].
  apply (New_stops_at_first_error [failing_option] [client.TokenFromString "secret"]
           ∅ ∅ no_options e).
  reflexivity.
Defined.

(** The token given last wins: after options that returned no error,
    a final [TokenFromString] with a token that is not empty makes [New]
    return a client with that token, whatever tokens were set before. *)
Theorem New_last_token_wins {E : Type} (options : list (@client.Option E))
    (env env1 : E) (o : client.optionSet) (tok : string) :
  client.range_options options no_options env = (Returns (o, None), env1) ->
  tok <> "" ->
  exists c,
    client.New (options ++ [client.TokenFromString tok]) env
    = (Returns (Some c, None), env1)
    /\ client.tc_token c = tok
    /\ client.tc_logWriter c = client.logWriter o.
Proof.
  intros Hrun Htok. rewrite New_of_range_options, range_options_app, Hrun.
  simpl. unfold bind, client.TokenFromString, ret. simpl.
  destruct (String.eqb_spec tok "") as [->|_]; [contradiction|].
  eexists. split; [reflexivity|]. split; reflexivity.
Qed.

Lemma New_last_token_wins_witness :
  exists c,
    client.New ([client.TokenFromString (E := unit) "old"; client.LogWriter (Some 7%nat)]
                ++ [client.TokenFromString "new"]) tt
    = (Returns (Some c, None), tt)
    /\ client.tc_token c = "new"
    /\ client.tc_logWriter c = Some 7%nat.
Proof.
  apply (New_last_token_wins
           [client.TokenFromString (E := unit) "old"; client.LogWriter (Some 7%nat)]
           tt tt
           {| client.httpClient := None; client.token := "old";
              client.logWriter := Some 7%nat |} "new");
    [reflexivity | discriminate].
Defined.

(** A list of options of which none changes the token (only [LogWriter]
    and [HTTPClient], say, or no option at all) never gives a client. *)
Theorem New_without_token_gives_no_client {E : Type}
    (options : list (@client.Option E)) (env env' : E)
    (c : option client.tokenClient) (err : option error) :
  Forall keeps_token options ->
  client.New options env = (Returns (c, err), env') ->
  c = None /\ err <> None.
Proof.
  intros Hkeep. rewrite New_of_range_options.
  destruct (client.range_options options no_options env) as [[[o e1]|p| |] env1] eqn:Hrun;
    try discriminate.
  pose proof (range_options_keeps_token options Hkeep _ _ _ _ _ Hrun) as Htok.
  simpl in Htok. destruct e1 as [e|].
  - intros [= <- <- <-]. split; [reflexivity | discriminate].
  - rewrite Htok. simpl. intros [= <- <- <-]. split; [reflexivity | discriminate].
Qed.

Lemma keeps_token_LogWriter {E : Type} (w : option client.io_Writer) :
  keeps_token (client.LogWriter (E := E) w).
Proof. intros o env o' err env' [= <- <- <-]. reflexivity. Qed.

Lemma keeps_token_HTTPClient {E : Type} (h : option client.http_Client) :
  keeps_token (client.HTTPClient (E := E) h).
Proof. intros o env o' err env' [= <- <- <-]. reflexivity. Qed.

Lemma New_without_token_gives_no_client_witness :
  let options := [client.LogWriter (E := unit) (Some 7%nat);
                  client.HTTPClient (Some (client.other_Client 1))] in
  let e := fmt_Errorf_w "%w: token not set" client.ErrConfiguration [] in
  client.New options tt = (Returns (None, Some e), tt)
  /\ (@None client.tokenClient = None /\ Some e <> None).
Proof.
  intros options e. split; [reflexivity|].
  apply (New_without_token_gives_no_client options tt tt None (Some e)).
  - repeat constructor; [apply keeps_token_LogWriter | apply keeps_token_HTTPClient].
  - reflexivity.
Defined.

(** [ANEXIA_TOKEN] set to the empty string: [TokenFromEnv] returns no
    error, and [New] then fails as for a token that was never given, with
    an error that wraps [ErrConfiguration] and not [ErrEnvMissing]; the
    environment is left as it was. *)
Theorem New_empty_token_in_env {E : Type} (LookupEnv : string -> E -> option string)
    (Unsetenv : string -> E -> option error * E) (env : E) :
  LookupEnv client.TokenEnvName env = Some "" ->
  exists e,
    client.New [client.TokenFromEnv LookupEnv Unsetenv false] env
    = (Returns (None, Some e), env)
    /\ errors_Is e client.ErrConfiguration = true
    /\ errors_Is e client.ErrEnvMissing = false.
Proof.
  intros Hempty. unfold client.New, bind. simpl. unfold bind, client.TokenFromEnv.
  rewrite Hempty. simpl. eexists. split; [reflexivity|]. split; reflexivity.
Qed.

Lemma New_empty_token_in_env_witness :
  exists e,
    client.New [client.TokenFromEnv doubles.LookupEnv doubles.Unsetenv false]
               {[ "ANEXIA_TOKEN" := "" ]}
    = (Returns (None, Some e), {[ "ANEXIA_TOKEN" := "" ]})
    /\ errors_Is e client.ErrConfiguration = true
    /\ errors_Is e client.ErrEnvMissing = false.
Proof.
  apply (New_empty_token_in_env doubles.LookupEnv doubles.Unsetenv
           {[ "ANEXIA_TOKEN" := "" ]}).
  reflexivity.
Defined.

(** [TokenFromEnv(true)] uses the variable up: with a token in
    [ANEXIA_TOKEN], [New] returns a client that holds it and leaves the
    environment without the variable, so that a second [New] with the same
    option fails with an error that wraps [ErrEnvMissing]. *)
Theorem New_unset_token_once (env : gmap string string) (tok : string) :
  env !! client.TokenEnvName = Some tok ->
  tok <> "" ->
  let option := client.TokenFromEnv doubles.LookupEnv doubles.Unsetenv true in
  (exists c,
     client.New [option] env = (Returns (Some c, None), delete client.TokenEnvName env)
     /\ client.tc_token c = tok)
  /\ exists e,
       client.New [option] (delete client.TokenEnvName env)
       = (Returns (None, Some e), delete client.TokenEnvName env)
       /\ errors_Is e client.ErrEnvMissing = true.
Proof.
  intros Hset Htok option. subst option. split.
  - unfold client.New, bind. simpl. unfold bind, client.TokenFromEnv, doubles.LookupEnv.
    rewrite Hset. simpl.
    destruct (String.eqb_spec tok "") as [->|_]; [contradiction|].
    simpl. eexists. split; reflexivity.
  - unfold client.New, bind. simpl. unfold bind, client.TokenFromEnv, doubles.LookupEnv.
    rewrite lookup_delete_eq. simpl. eexists. split; reflexivity.
Qed.

Lemma New_unset_token_once_witness :
  let option := client.TokenFromEnv doubles.LookupEnv doubles.Unsetenv true in
  let env : gmap string string := {[ "ANEXIA_TOKEN" := "secret" ]} in
  (exists c,
     client.New [option] env = (Returns (Some c, None), delete client.TokenEnvName env)
     /\ client.tc_token c = "secret")
  /\ exists e,
       client.New [option] (delete client.TokenEnvName env)
       = (Returns (None, Some e), delete client.TokenEnvName env)
       /\ errors_Is e client.ErrEnvMissing = true.
Proof.
  intros option env.
  apply (New_unset_token_once env "secret"); [reflexivity | discriminate].
Defined.

(** ** [dumpRequest] and [handleRequest] *)
Section handleRequest_facts.
Context {W rbody body : Type}.
Variable Do : transport.Request rbody -> M W (option (http.Response body) * option error).
Variable DumpRequestOut : transport.Request rbody -> (string * rbody) + error.
Variable DumpResponse : http.Response body -> bool -> string + error.
Variable Decode : body -> transport.decoded_error + error.

Local Abbreviation dumpRequest := (transport.dumpRequest DumpRequestOut).
Local Abbreviation handleRequest :=
  (transport.handleRequest Do DumpRequestOut DumpResponse Decode).

Lemma redacted_authorized (credentials : list string) (req : transport.Request rbody) :
  transport.redacted (authorized credentials req) = transport.redacted req.
Proof.
  unfold transport.redacted, authorized. simpl. f_equal. apply insert_insert_eq.
Qed.

(** What [dumpRequest] hands back keeps the method, the URL and the
    header of the request it was given. *)
Lemma dumpRequest_keeps_request (req : transport.Request rbody) :
  transport.Line (snd (dumpRequest req)) = transport.Line req
  /\ transport.Header (snd (dumpRequest req)) = transport.Header req.
Proof.
  unfold transport.dumpRequest.
  destruct (DumpRequestOut (transport.redacted req)) as [[d b]|e]; split; reflexivity.
Qed.

(** The dump that [dumpRequest] makes does not depend on the
    credentials of the request: with any two values of its
    [Authorization] header the dump, or the error, is the same; and the
    request itself keeps the credentials it came with. *)
Theorem dumpRequest_hides_credentials (req : transport.Request rbody)
    (credentials1 credentials2 : list string) :
  fst (dumpRequest (authorized credentials1 req))
  = fst (dumpRequest (authorized credentials2 req))
  /\ transport.Header (snd (dumpRequest (authorized credentials1 req)))
       !! "Authorization" = Some credentials1.
Proof.
  split.
  - unfold transport.dumpRequest. rewrite !redacted_authorized.
    destruct (DumpRequestOut (transport.redacted req)) as [[d b]|e]; reflexivity.
  - destruct (dumpRequest_keeps_request (authorized credentials1 req)) as [_ ->].
    apply lookup_insert_eq.
Qed.

Lemma written_app (format : string) (out1 out2 : list (string * string)) :
  written format (out1 ++ out2) = written format out1 ++ written format out2.
Proof. unfold written. rewrite List.filter_app, List.map_app. reflexivity. Qed.

(** Past [c.Do], [handleRequest] writes no request line. *)
Lemma written_log_response (logWriter : option client.io_Writer)
    (response : option (http.Response body))
    (err : option (transport.failure rbody body)) (wl : W * list (string * string)) :
  written "request: %s\n"
    (snd (snd (transport.log_response DumpResponse logWriter response err wl)))
  = written "request: %s\n" (snd wl).
Proof.
  unfold transport.log_response.
  destruct logWriter, response; try reflexivity.
  destruct (DumpResponse _ _); [|reflexivity].
  unfold bind, transport.Fprintf, ret. simpl.
  rewrite written_app. simpl. apply app_nil_r.
Qed.

Lemma written_send_request (req : transport.Request rbody)
    (logWriter : option client.io_Writer) (wl : W * list (string * string)) :
  written "request: %s\n"
    (snd (snd (transport.send_request Do DumpResponse Decode req logWriter wl)))
  = written "request: %s\n" (snd wl).
Proof.
  unfold transport.send_request, bind, transport.on_network.
  destruct (Do req (fst wl)) as [[[response err]|p| |] w1]; try reflexivity.
  destruct err as [e|]; [now rewrite written_log_response|].
  destruct response as [resp|]; [|reflexivity].
  destruct ((http.StatusCode resp <? transport.StatusOK)
            || (transport.StatusMultipleChoices <=? http.StatusCode resp));
    [|now rewrite written_log_response].
  destruct (Decode (http.Body resp)) as [[[[code message] validation] source]|e];
    [now rewrite written_log_response | reflexivity].
Qed.

(** The request lines that [handleRequest] writes: none without a log
    writer or when the dump fails, and else one, the dump of the request
    with its [Authorization] header set to [REDACTED]. *)
Theorem handleRequest_logs_redacted_request (req : transport.Request rbody)
    (logWriter : option client.io_Writer) (w : W) (out : list (string * string)) :
  written "request: %s\n" (snd (snd (handleRequest req logWriter (w, out))))
  = written "request: %s\n" out
    ++ match logWriter, DumpRequestOut (transport.redacted req) with
       | Some _, inl (dump, _) => [dump]
       | _, _ => []
       end.
Proof.
  unfold transport.handleRequest, bind.
  destruct (transport.log_request DumpRequestOut req logWriter (w, out))
    as [r wl] eqn:Hlog.
  assert (Hout : written "request: %s\n" (snd wl)
                 = written "request: %s\n" out
                   ++ match logWriter, DumpRequestOut (transport.redacted req) with
                      | Some _, inl (dump, _) => [dump]
                      | _, _ => []
                      end
                 /\ exists r', r = Returns r').
  { unfold transport.log_request, transport.dumpRequest in Hlog.
    destruct logWriter as [lw|].
    - destruct (DumpRequestOut (transport.redacted req)) as [[dump body_left]|e];
        unfold bind, transport.Fprintf, ret in Hlog; simpl in Hlog;
        injection Hlog as <- <-; simpl; split; eauto.
      + apply written_app.
      + symmetry; apply app_nil_r.
    - unfold ret in Hlog. injection Hlog as <- <-. simpl. split; eauto.
      symmetry; apply app_nil_r. }
  destruct Hout as [Hout [r' ->]].
  rewrite written_send_request. exact Hout.
Qed.

(** [log_response] returns what it was given and leaves the network
    alone. *)
Lemma log_response_result (logWriter : option client.io_Writer)
    (response : option (http.Response body))
    (err : option (transport.failure rbody body)) (wl : W * list (string * string)) :
  fst (transport.log_response DumpResponse logWriter response err wl)
  = Returns (response, err)
  /\ fst (snd (transport.log_response DumpResponse logWriter response err wl)) = fst wl.
Proof.
  unfold transport.log_response.
  destruct logWriter, response; try (split; reflexivity).
  destruct (DumpResponse _ _); split; reflexivity.
Qed.

(** What [log_request] gives on: a request with the method, URL and
    header of the one it was given, the network untouched. *)
Lemma log_request_result (req : transport.Request rbody)
    (logWriter : option client.io_Writer) (wl : W * list (string * string)) :
  exists sent,
    fst (transport.log_request DumpRequestOut req logWriter wl) = Returns sent
    /\ fst (snd (transport.log_request DumpRequestOut req logWriter wl)) = fst wl
    /\ transport.Line sent = transport.Line req
    /\ transport.Header sent = transport.Header req.
Proof.
  unfold transport.log_request, transport.dumpRequest.
  destruct logWriter as [lw|]; [|exists req; repeat split].
  destruct (DumpRequestOut (transport.redacted req)) as [[dump body_left]|e];
    eexists; repeat split.
Qed.

(** [handleRequest] gives [c.Do] one request, with the method, the URL
    and the header (credentials included) of the request it was given.
    When [Do] returns an error, that error and the response of [Do] are
    returned as they are; when it returns a response and no error, that
    response is returned, and the error is [nil] exactly when the status
    is in 200..299. *)
Theorem handleRequest_error_iff_not_2xx (req : transport.Request rbody)
    (logWriter : option client.io_Writer) (wl wl' : W * list (string * string))
    (response : option (http.Response body))
    (err : option (transport.failure rbody body)) :
  handleRequest req logWriter wl = (Returns (response, err), wl') ->
  exists sent,
    transport.Line sent = transport.Line req
    /\ transport.Header sent = transport.Header req
    /\ exists got failed,
         Do sent (fst wl) = (Returns (got, failed), fst wl')
         /\ response = got
         /\ match failed with
            | Some e => err = Some (transport.plain e)
            | None =>
                exists resp,
                  got = Some resp
                  /\ (err = None <-> 200 <= http.StatusCode resp < 300)
            end.
Proof.
  unfold transport.handleRequest, bind. intros H.
  destruct (log_request_result req logWriter wl) as (sent & Hs & Hw & Hline & Hhead).
  destruct (transport.log_request DumpRequestOut req logWriter wl) as [r wl1].
  simpl in Hs, Hw. subst r. exists sent. split; [exact Hline|]. split; [exact Hhead|].
  unfold transport.send_request, bind, transport.on_network in H. rewrite Hw in H.
  destruct (Do sent (fst wl)) as [[[got failed]|p| |] w1]; try discriminate.
  exists got, failed.
  destruct failed as [e|].
  { destruct (log_response_result logWriter got (Some (transport.plain e))
                (w1, snd wl1)) as [Hr Hn].
    rewrite H in Hr, Hn. simpl in Hr, Hn. injection Hr as -> ->. subst w1.
    repeat split. }
  destruct got as [resp|]; [|discriminate].
  unfold transport.StatusOK, transport.StatusMultipleChoices in H.
  destruct (http.StatusCode resp <? 200) eqn:Hlo;
    destruct (300 <=? http.StatusCode resp) eqn:Hhi; simpl in H;
    try (apply Z.ltb_lt in Hlo); try (apply Z.ltb_ge in Hlo);
    try (apply Z.leb_le in Hhi); try (apply Z.leb_gt in Hhi).
  4:{ destruct (log_response_result logWriter (Some resp) None (w1, snd wl1))
        as [Hr Hn].
      rewrite H in Hr, Hn. simpl in Hr, Hn. injection Hr as -> ->. subst w1.
      repeat split. exists resp. split; [reflexivity|]. split; [lia | reflexivity]. }
  all: destruct (Decode (http.Body resp)) as [[[[code message] validation] source]|e];
    [ match type of H with
      | transport.log_response _ _ _ ?x _ = _ =>
          destruct (log_response_result logWriter (Some resp) x (w1, snd wl1))
            as [Hr Hn]
      end;
      rewrite H in Hr, Hn; simpl in Hr, Hn; injection Hr as -> ->; subst w1
    | unfold ret in H; injection H as <- <- <- ];
    repeat split; exists resp; (split; [reflexivity|]);
    (split; [discriminate | lia]).
Qed.

(** An error answer whose body does not decode is returned with the
    decoder's error wrapped, and, unlike any other answer, is not written
    to the log, log writer or not. *)
Theorem handleRequest_undecodable_error_not_logged (req : transport.Request rbody)
    (logWriter : option client.io_Writer) (w w1 : W) (out : list (string * string))
    (resp : http.Response body) (cause : error) :
  (forall sent, Do sent w = (Returns (Some resp, None), w1)) ->
  ~ 200 <= http.StatusCode resp < 300 ->
  Decode (http.Body resp) = inr cause ->
  exists out',
    handleRequest req logWriter (w, out)
    = (Returns (Some resp,
                Some (transport.plain
                        (fmt_Errorf_w "could not decode error response: %w" cause []))),
       (w1, out'))
    /\ written "response: %s\n" out' = written "response: %s\n" out.
Proof.
  intros HDo Hstatus Hdecode. unfold transport.handleRequest, bind.
  assert (Hlog : exists sent out1,
            transport.log_request DumpRequestOut req logWriter (w, out)
            = (Returns sent, (w, out1))
            /\ written "response: %s\n" out1 = written "response: %s\n" out).
  { unfold transport.log_request, transport.dumpRequest.
    destruct logWriter as [lw|]; [|eexists _, _; split; reflexivity].
    destruct (DumpRequestOut (transport.redacted req)) as [[dump body_left]|e];
      eexists _, _; (split; [reflexivity|]); simpl; [|reflexivity].
    rewrite written_app. simpl. apply app_nil_r. }
  destruct Hlog as (sent & out1 & -> & Hout1).
  unfold transport.send_request, bind, transport.on_network. simpl.
  rewrite HDo.
  assert (((http.StatusCode resp <? transport.StatusOK)
           || (transport.StatusMultipleChoices <=? http.StatusCode resp)) = true) as ->.
  { unfold transport.StatusOK, transport.StatusMultipleChoices.
    apply orb_true_iff.
    destruct (Z.ltb_spec (http.StatusCode resp) 200); [left; reflexivity|].
    right. apply Z.leb_le. lia. }
  rewrite Hdecode. exists out1. split; [reflexivity | exact Hout1].
Qed.


End handleRequest_facts.

Section handleRequest_witnesses.

Local Abbreviation gateway_timeout :=
  {| http.StatusCode := 504; http.Status := "504 Gateway Timeout";
     http.Body := "<html>" |}.

Local Abbreviation ok_response :=
  {| http.StatusCode := 200; http.Status := "200 OK"; http.Body := "{}" |}.

Lemma handleRequest_error_iff_not_2xx_witness :
  transport.handleRequest (always_answers ok_response) dump_method dump_status not_json
                          credentialed_request (Some 1%nat) (tt, [])
  = (Returns (Some ok_response, None),
     (tt, [("request: %s\n", "GET"); ("response: %s\n", "200 OK")]))
  /\ exists sent,
       transport.Line sent = transport.Line credentialed_request
       /\ transport.Header sent = transport.Header credentialed_request
       /\ exists got failed,
            always_answers ok_response sent tt = (Returns (got, failed), tt)
            /\ Some ok_response = got
            /\ match failed with
               | Some e => @None (transport.failure string string)
                           = Some (transport.plain e)
               | None =>
                   exists resp,
                     got = Some resp
                     /\ (@None (transport.failure string string) = None
                         <-> 200 <= http.StatusCode resp < 300)
               end.
Proof.
  split; [reflexivity|].
  apply (handleRequest_error_iff_not_2xx (always_answers ok_response) dump_method
           dump_status not_json credentialed_request (Some 1%nat) (tt, [])
           (tt, [("request: %s\n", "GET"); ("response: %s\n", "200 OK")])
           (Some ok_response) None).
  reflexivity.
Defined.

Lemma handleRequest_undecodable_error_not_logged_witness :
  exists out',
    transport.handleRequest (always_answers gateway_timeout) dump_method dump_status
                            not_json credentialed_request (Some 1%nat) (tt, [])
    = (Returns (Some gateway_timeout,
                Some (transport.plain
                        (fmt_Errorf_w "could not decode error response: %w"
                           (errors_New "invalid character '<' looking for beginning of value")
                           []))),
       (tt, out'))
    /\ written "response: %s\n" out' = written "response: %s\n" [].
Proof.
  apply (handleRequest_undecodable_error_not_logged (always_answers gateway_timeout)
           dump_method dump_status not_json credentialed_request (Some 1%nat) tt tt []
           gateway_timeout
           (errors_New "invalid character '<' looking for beginning of value")).
  - intros sent. reflexivity.
  - simpl. lia.
  - reflexivity.
Defined.


End handleRequest_witnesses.

(** ** The record calls of package [zone] *)
Section zone_facts.
Context {W body ZoneRecord Zone UUID : Type}.
Variable pathPrefix : string.
Variable zero_Zone : Zone.
Variable UUID_String : UUID -> string.
Variable url_Parse : string -> http.URL + error.
Variable Encode : zone.RecordRequest -> string + error.
Variable error_value : error -> value.
Variable Decode_records : body -> list ZoneRecord + error.
Variable Decode_zone : body -> Zone + error.
Variable Close : body -> M W (option error).

Local Abbreviation ListRecords :=
  (zone.ListRecords pathPrefix url_Parse Decode_records Close).
Local Abbreviation NewRecord :=
  (zone.NewRecord pathPrefix zero_Zone url_Parse Encode error_value Decode_zone Close).
Local Abbreviation UpdateRecord :=
  (zone.UpdateRecord pathPrefix zero_Zone UUID_String url_Parse Encode error_value
                     Decode_zone Close).
Local Abbreviation DeleteRecord :=
  (zone.DeleteRecord pathPrefix UUID_String url_Parse Close).

Ltac zone_cases H :=
  unfold zone.ListRecords, zone.NewRecord, zone.UpdateRecord, zone.DeleteRecord,
    bind, ret, do_panic in H;
  repeat case_match; simplify_eq.


(** Whenever [NewRecord] or [UpdateRecord] returns an error, the zone it
    returns with it is the zero [Zone], also when the server had
    answered with a zone. *)
Theorem record_change_error_gives_zero_Zone (a : @zone.api W body) (name : string)
    (id : UUID) (record : zone.RecordRequest) (w w' : W) (z : Zone) (e : error) :
  NewRecord a name record w = (Returns (z, Some e), w')
  \/ UpdateRecord a name id record w = (Returns (z, Some e), w') ->
  z = zero_Zone.
Proof. intros [H|H]; zone_cases H; reflexivity. Qed.

End zone_facts.



Lemma record_change_error_gives_zero_Zone_witness :
  let a := {| zone.client :=
                zone_answering "https://engine.anexia-it.com"
                  {| http.StatusCode := 500; http.Status := "500 Internal Server Error";
                     http.Body := "served zone" |} |} in
  let record := {| zone.Name := "www"; zone.Type_ := "A"; zone.RData := "192.0.2.1";
                   zone.Region := "default"; zone.TTL := 300 |} in
  let e := fmt_Errorf "could not execute record create request, got response %s"
                      ["500 Internal Server Error"] in
  zone.NewRecord "/api/clouddns/v1/zone.json" "no zone" doubles.parse_any
                 (fun r => inl (zone.Name r)) (fun _ => nil_interface) inl
                 counted_Close a "example.com" record 0%nat
  = (Returns ("no zone", Some e), 0%nat)
  /\ "no zone" = "no zone".
Proof.
  intros a record e. split; [reflexivity|].
  apply (record_change_error_gives_zero_Zone "/api/clouddns/v1/zone.json" "no zone"
           (fun id : nat => "") doubles.parse_any (fun r => inl (zone.Name r))
           (fun _ => nil_interface) inl counted_Close
           a "example.com" 0%nat record 0%nat 0%nat "no zone" e).
  left. reflexivity.
Defined.


(** When [ANEXIA_TOKEN] holds a token but unsetting it fails,
    [TokenFromEnv(true)] has read the token and still makes [New] fail:
    no client, and an error that wraps the error of [os.Unsetenv]. *)
Theorem New_unset_failure_gives_no_client {E : Type}
    (LookupEnv : string -> E -> option string)
    (Unsetenv : string -> E -> option error * E)
    (env env' : E) (tok : string) (cause : error) :
  LookupEnv client.TokenEnvName env = Some tok ->
  Unsetenv client.TokenEnvName env = (Some cause, env') ->
  exists e,
    client.New [client.TokenFromEnv LookupEnv Unsetenv true] env
    = (Returns (None, Some e), env')
    /\ errors_Is e cause = true.
Proof.
  intros Hlookup Hunset. unfold client.New, bind. simpl.
  unfold bind, client.TokenFromEnv. rewrite Hlookup, Hunset. simpl.
  eexists. split; [reflexivity|]. apply errors_Is_wrapped, errors_Is_refl.
Qed.

Lemma New_unset_failure_gives_no_client_witness :
  exists e,
    client.New [client.TokenFromEnv (E := unit) (fun _ _ => Some "secret")
                  (fun _ env => (Some (errors_New "invalid argument"), env)) true] tt
    = (Returns (None, Some e), tt)
    /\ errors_Is e (errors_New "invalid argument") = true.
Proof.
  apply (New_unset_failure_gives_no_client (E := unit) (fun _ _ => Some "secret")
           (fun _ env => (Some (errors_New "invalid argument"), env)) tt tt "secret"
           (errors_New "invalid argument"));
    reflexivity.
Defined.
